(** * Incident commander: agent selection, evidence extraction, verdict synthesis

    A shallow embedding of the four tool functions of the repository

      - [decide_agents] and [synthesize_verdict]   (commander_agent.py)
      - [analyze_logs]                             (log_agent.py)
      - [analyze_metrics]                          (metrics_agent.py)

    together with the fragment of Python they rely on: JSON-like values,
    [json.dumps], [str], [str.lower], the substring test [in], dictionary
    subscripting and [dict.get], exceptions, and [list(set(...))]; and of the
    context loaders [load_log_context], [load_metric_context],
    [load_context_data] and [load_all_mock_data] (mock_data_loader.py), which
    see the file system through the outcome of [json.load(open(path))].

    Conventions of the embedding.
      - A Python [str] is a Rocq [string]; each character stands for the code
        point of the same number (0..255).
      - A Python [dict] is an association list in insertion order, which is the
        order [json.dumps] and [str] print it in.
      - A Python [float] is carried by the text [float.__repr__] prints for it.
      - A raised exception is the [Raise] case of [result]. *)

From Stdlib Require Import String Ascii List ZArith NArith Bool.
From Stdlib Require Import Permutation DecimalString.
Import ListNotations.

Local Open Scope list_scope.
Local Open Scope string_scope.

(* ================================================================== *)
(** ** Text: [in], [str.lower] *)
(* ================================================================== *)

(** [s.startswith(p)] *)
Fixpoint starts_with (p s : string) : bool :=
  match p with
  | EmptyString => true
  | String a p' =>
      match s with
      | EmptyString => false
      | String b s' => Ascii.eqb a b && starts_with p' s'
      end
  end.

(** [needle in hay] on two strings. *)
Fixpoint str_in (needle hay : string) : bool :=
  starts_with needle hay ||
  match hay with
  | EmptyString => false
  | String _ hay' => str_in needle hay'
  end.

(** [any(k in text for k in keys)] *)
Definition any_in (keys : list string) (text : string) : bool :=
  existsb (fun k => str_in k text) keys.

(** One character of [str.lower]: [A-Z], and the upper-case letters of the
    range 0xC0..0xDE (the multiplication sign 0xD7 is not a letter). *)
Definition lower_char (c : ascii) : ascii :=
  let n := N_of_ascii c in
  if ((65 <=? n) && (n <=? 90))%N then ascii_of_N (n + 32)
  else if ((192 <=? n) && (n <=? 222) && negb (n =? 215))%N
       then ascii_of_N (n + 32)
  else c.

(** [s.lower()] *)
Fixpoint lower (s : string) : string :=
  match s with
  | EmptyString => EmptyString
  | String c s' => String (lower_char c) (lower s')
  end.

(** Lower-case hexadecimal digit. *)
Definition hex_digit (n : N) : ascii :=
  if (n <? 10)%N then ascii_of_N (48 + n) else ascii_of_N (87 + n).

(** Two hexadecimal digits of a code point below 256. *)
Definition hex2 (c : ascii) : string :=
  let n := N_of_ascii c in
  String (hex_digit (n / 16)) (String (hex_digit (n mod 16)) EmptyString).

(* ================================================================== *)
(** ** Values *)
(* ================================================================== *)

(** A float, by what Python prints for it. *)
Inductive pyfloat : Type :=
| FNan
| FInf (negative : bool)
| FRepr (text : string).

(** The values that reach the tool functions: what [json.load] builds. *)
#[warnings="-register-all"]
Inductive value : Type :=
| VNone
| VBool (b : bool)
| VInt (z : Z)
| VFloat (f : pyfloat)
| VStr (s : string)
| VList (items : list value)
| VDict (entries : list (string * value)).

Definition py_int_text (z : Z) : string :=
  NilZero.string_of_int (Z.to_int z).

(* ------------------------------------------------------------------ *)
(** *** [json.dumps] with its default arguments *)

(** [ensure_ascii] escaping of one character. *)
Definition json_escape_char (c : ascii) : string :=
  let n := N_of_ascii c in
  if (n =? 34)%N then "\" ++ String c EmptyString
  else if (n =? 92)%N then "\\"
  else if (n =? 8)%N then "\b"
  else if (n =? 12)%N then "\f"
  else if (n =? 10)%N then "\n"
  else if (n =? 13)%N then "\r"
  else if (n =? 9)%N then "\t"
  else if ((n <? 32) || (126 <? n))%N then "\u00" ++ hex2 c
  else String c EmptyString.

Fixpoint json_escape (s : string) : string :=
  match s with
  | EmptyString => EmptyString
  | String c s' => json_escape_char c ++ json_escape s'
  end.

Definition dquote : string := String (ascii_of_N 34) EmptyString.

Definition json_string (s : string) : string :=
  dquote ++ json_escape s ++ dquote.

Definition json_float (f : pyfloat) : string :=
  match f with
  | FNan => "NaN"
  | FInf false => "Infinity"
  | FInf true => "-Infinity"
  | FRepr t => t
  end.

Fixpoint json_dumps (v : value) : string :=
  match v with
  | VNone => "null"
  | VBool true => "true"
  | VBool false => "false"
  | VInt z => py_int_text z
  | VFloat f => json_float f
  | VStr s => json_string s
  | VList items => "[" ++ String.concat ", " (map json_dumps items) ++ "]"
  | VDict entries =>
      "{" ++ String.concat ", "
               (map (fun kv => json_string (fst kv) ++ ": " ++ json_dumps (snd kv))
                    entries) ++ "}"
  end.

(* ------------------------------------------------------------------ *)
(** *** [str] and [repr] *)

(** [str.isprintable] on one character. *)
Definition is_printable (c : ascii) : bool :=
  let n := N_of_ascii c in
  ((32 <=? n) && (n <? 127) || (161 <=? n) && negb (n =? 173))%N.

Definition squote : string := "'".

(** [repr] of a [str] picks double quotes when the text has a single quote
    and no double quote, single quotes otherwise. *)
Definition repr_quote (s : string) : string :=
  if str_in squote s && negb (str_in dquote s) then dquote else squote.

Definition repr_char (quote : string) (c : ascii) : string :=
  let n := N_of_ascii c in
  if String.eqb (String c EmptyString) quote || (n =? 92)%N
  then "\" ++ String c EmptyString
  else if (n =? 9)%N then "\t"
  else if (n =? 10)%N then "\n"
  else if (n =? 13)%N then "\r"
  else if is_printable c then String c EmptyString
  else "\x" ++ hex2 c.

Fixpoint repr_chars (quote : string) (s : string) : string :=
  match s with
  | EmptyString => EmptyString
  | String c s' => repr_char quote c ++ repr_chars quote s'
  end.

Definition repr_string (s : string) : string :=
  let q := repr_quote s in q ++ repr_chars q s ++ q.

Definition repr_float (f : pyfloat) : string :=
  match f with
  | FNan => "nan"
  | FInf false => "inf"
  | FInf true => "-inf"
  | FRepr t => t
  end.

Fixpoint py_repr (v : value) : string :=
  match v with
  | VNone => "None"
  | VBool true => "True"
  | VBool false => "False"
  | VInt z => py_int_text z
  | VFloat f => repr_float f
  | VStr s => repr_string s
  | VList items => "[" ++ String.concat ", " (map py_repr items) ++ "]"
  | VDict entries =>
      "{" ++ String.concat ", "
               (map (fun kv => repr_string (fst kv) ++ ": " ++ py_repr (snd kv))
                    entries) ++ "}"
  end.

(** [str(v)]: a string is itself, anything else prints as its [repr]. *)
Definition py_str (v : value) : string :=
  match v with
  | VStr s => s
  | _ => py_repr v
  end.

(* ================================================================== *)
(** ** Exceptions, dictionaries, sets *)
(* ================================================================== *)

Inductive pyerror : Type :=
| KeyError (key : string)
| TypeError
| AttributeError.

Inductive result (A : Type) : Type :=
| Ok (a : A)
| Raise (e : pyerror).

Arguments Ok {A} a.
Arguments Raise {A} e.

Definition bind {A B : Type} (r : result A) (k : A -> result B) : result B :=
  match r with
  | Ok a => k a
  | Raise e => Raise e
  end.

Notation "x <- r ;; k" := (bind r (fun x => k))
  (at level 61, r at next level, right associativity).

(** First binding of [k] in a dictionary. *)
Fixpoint lookup (k : string) (d : list (string * value)) : option value :=
  match d with
  | [] => None
  | (k', v) :: d' => if String.eqb k k' then Some v else lookup k d'
  end.

(** [d[k] = v]: an existing key keeps its place, a new one goes last. *)
Fixpoint dict_set (d : list (string * value)) (k : string) (v : value)
  : list (string * value) :=
  match d with
  | [] => [(k, v)]
  | (k', v') :: d' =>
      if String.eqb k k' then (k, v) :: d' else (k', v') :: dict_set d' k v
  end.

(** [v[k]] with a string key: [KeyError] on a dictionary without [k],
    [TypeError] on a list, a string, a number or [None]. *)
Definition subscript (v : value) (k : string) : result value :=
  match v with
  | VDict d =>
      match lookup k d with
      | Some x => Ok x
      | None => Raise (KeyError k)
      end
  | _ => Raise TypeError
  end.

(** [v.get(k, default)]: only a dictionary has the method. *)
Definition py_get (v : value) (k : string) (default : value) : result value :=
  match v with
  | VDict d =>
      match lookup k d with
      | Some x => Ok x
      | None => Ok default
      end
  | _ => Raise AttributeError
  end.

(** The order in which [list(set(xs))] lists the distinct elements of [xs]
    follows the hashes of the strings, which CPython seeds per process.  A
    process is therefore represented by the enumeration it uses. *)
Record SetOrder : Type := {
  list_of_set : list string -> list string;
  list_of_set_NoDup : forall xs, NoDup (list_of_set xs);
  list_of_set_In : forall xs x, In x (list_of_set xs) <-> In x xs
}.

(** One possible process: the distinct elements in list order. *)
Definition insertion_order : SetOrder :=
  {| list_of_set := nodup string_dec;
     list_of_set_NoDup := NoDup_nodup string_dec;
     list_of_set_In := fun xs x => nodup_In string_dec xs x |}.

(** Another one: the reverse enumeration. *)
Definition reverse_order : SetOrder :=
  {| list_of_set := fun xs => rev (nodup string_dec xs);
     list_of_set_NoDup := fun xs =>
       NoDup_rev (NoDup_nodup string_dec xs);
     list_of_set_In := fun xs x =>
       iff_trans (iff_sym (in_rev (nodup string_dec xs) x))
                 (nodup_In string_dec xs x) |}.

(* ================================================================== *)
(** ** log_agent.py and metrics_agent.py *)
(* ================================================================== *)

(** The dictionary both extractors return. *)
Module Findings.
Record t : Type := {
  agent : string;
  incident_id : value;
  findings : list string;
  evidence : list (string * value);
  hypothesis : string;
  confidence : pyfloat
}.

(** The returned dictionary as a value, keys in the order of the literal. *)
Definition to_value (r : t) : value :=
  VDict [ ("agent", VStr (agent r));
          ("incident_id", incident_id r);
          ("findings", VList (map VStr (findings r)));
          ("evidence", VDict (evidence r));
          ("hypothesis", VStr (hypothesis r));
          ("confidence", VFloat (confidence r)) ].
End Findings.

(** The two local accumulators of an extractor. *)
Definition extractor_state : Type := (list string * list (string * value))%type.

(** [if cond: findings.append(finding); evidence[flag] = True] *)
Definition trigger (cond : bool) (finding flag : string) (st : extractor_state)
  : extractor_state :=
  if cond
  then ((fst st ++ [finding])%list, dict_set (snd st) flag (VBool true))
  else st.

Definition log_hypothesis : string :=
  "Log patterns indicate downstream database connection saturation "
  ++ "triggering retries and circuit breaker activation".

Definition analyze_logs (proc : SetOrder) (input_payload : value)
  : result Findings.t :=
  incident <- subscript input_payload "incident" ;;
  context <- subscript input_payload "context" ;;
  incident_id <- subscript incident "incident_id" ;;
  logs <- py_get context "logs" (VDict []) ;;
  let st : extractor_state := ([], []) in
  let logs_text := lower (json_dumps logs) in
  let st := trigger (str_in "timeout" logs_text)
              "Application experienced database timeouts" "timeouts" st in
  let st := trigger (str_in "retry" logs_text)
              "Retry storms detected in application logs" "retry_storms" st in
  let st := trigger (str_in "too many connections" logs_text
                     || str_in "connection pool exhausted" logs_text)
              "Database rejected connections due to connection limit"
              "connection_exhaustion" st in
  let st := trigger (str_in "circuit" logs_text)
              "Circuit breakers activated under load" "circuit_breaker" st in
  let hypothesis := log_hypothesis in
  Ok {| Findings.agent := "log_agent";
        Findings.incident_id := incident_id;
        Findings.findings := list_of_set proc (fst st);
        Findings.evidence := snd st;
        Findings.hypothesis := hypothesis;
        Findings.confidence := FRepr "0.93" |}.

Definition metric_hypothesis : string :=
  "Metrics indicate database capacity constrained by connection limits "
  ++ "rather than compute resources, amplified by application autoscaling".

Definition analyze_metrics (proc : SetOrder) (input_payload : value)
  : result Findings.t :=
  incident <- subscript input_payload "incident" ;;
  context <- subscript input_payload "context" ;;
  incident_id <- subscript incident "incident_id" ;;
  metrics <- py_get context "metrics" (VDict []) ;;
  let st : extractor_state := ([], []) in
  let metrics_text := lower (json_dumps metrics) in
  let st := trigger (str_in "connection" metrics_text
                     && (str_in "1.0" metrics_text || str_in "100" metrics_text))
              "Database active connections reached maximum capacity"
              "db_connection_saturation" st in
  let st := trigger (str_in "replica" metrics_text
                     || str_in "autoscale" metrics_text)
              "Application autoscaled rapidly under traffic spike"
              "autoscaling_event" st in
  let st := trigger (str_in "latency" metrics_text || str_in "p99" metrics_text
                     || str_in "p95" metrics_text)
              "Latency increased in correlation with load and saturation"
              "latency_spike" st in
  let st := trigger (str_in "cpu" metrics_text && str_in "low" metrics_text)
              "Database CPU remained underutilized during incident"
              "cpu_not_bottleneck" st in
  let hypothesis := metric_hypothesis in
  Ok {| Findings.agent := "metric_agent";
        Findings.incident_id := incident_id;
        Findings.findings := list_of_set proc (fst st);
        Findings.evidence := snd st;
        Findings.hypothesis := hypothesis;
        Findings.confidence := FRepr "0.91" |}.

(* ================================================================== *)
(** ** commander_agent.py *)
(* ================================================================== *)

Module Selection.
Record t : Type := {
  incident_id : value;
  agents_to_call : list string
}.
End Selection.

Definition logs_keywords : list string :=
  ["latency"; "timeout"; "retry"; "error"; "circuit"; "failure"].

Definition metrics_keywords : list string :=
  ["capacity"; "exhaustion"; "connections"; "autoscaling"; "saturation"; "usage"].

Definition deploy_keywords : list string :=
  ["deployment"; "config"; "change"; "release"].

Definition decide_agents (proc : SetOrder) (incident : value)
  : result Selection.t :=
  symptoms <- py_get incident "expected_symptoms" (VDict []) ;;
  let expected := lower (py_str symptoms) in
  let agents : list string := [] in
  let agents := if any_in logs_keywords expected
                then (agents ++ ["logs_agent"])%list else agents in
  let agents := if any_in metrics_keywords expected
                then (agents ++ ["metrics_agent"])%list else agents in
  let agents := if any_in deploy_keywords expected
                then (agents ++ ["deploy_intelligence_agent"])%list else agents in
  incident_id <- subscript incident "incident_id" ;;
  Ok {| Selection.incident_id := incident_id;
        Selection.agents_to_call := list_of_set proc agents |}.

Module Verdict.
Record actions : Type := {
  immediate : list string;
  short_term : list string;
  long_term : list string
}.

Record t : Type := {
  incident_id : value;
  severity : value;
  root_cause : string;
  failure_summary : list string;
  recommended_actions : actions;
  confidence : pyfloat
}.
End Verdict.

Definition undetermined : string := "Undetermined".

Definition pool_exhaustion : string :=
  "Database connection pool exhaustion caused by "
  ++ "application scaling without corresponding database capacity".

Definition long_term_actions : list string :=
  ["Introduce centralized connection pooling";
   "Implement capacity-aware autoscaling";
   "Add read replicas or shard database workload"].

(** [" ".join(json.dumps(f).lower() for f in agent_findings)] *)
Definition combined (agent_findings : list value) : string :=
  String.concat " " (map (fun f => lower (json_dumps f)) agent_findings).

(** [remediation["immediate"].append(x)] and its two siblings. *)
Definition append_immediate (r : Verdict.actions) (x : string)
  : Verdict.actions :=
  {| Verdict.immediate := (Verdict.immediate r ++ [x])%list;
     Verdict.short_term := Verdict.short_term r;
     Verdict.long_term := Verdict.long_term r |}.

Definition append_short_term (r : Verdict.actions) (x : string)
  : Verdict.actions :=
  {| Verdict.immediate := Verdict.immediate r;
     Verdict.short_term := (Verdict.short_term r ++ [x])%list;
     Verdict.long_term := Verdict.long_term r |}.

Definition extend_long_term (r : Verdict.actions) (xs : list string)
  : Verdict.actions :=
  {| Verdict.immediate := Verdict.immediate r;
     Verdict.short_term := Verdict.short_term r;
     Verdict.long_term := (Verdict.long_term r ++ xs)%list |}.

Definition synthesize_verdict (incident : value) (agent_findings : list value)
  : result Verdict.t :=
  let combined_text := combined agent_findings in
  let failure_summary : list string := [] in
  let remediation :=
    {| Verdict.immediate := [];
       Verdict.short_term := [];
       Verdict.long_term := [] |} in
  let root_cause := undetermined in
  let '(root_cause, failure_summary, remediation) :=
    if str_in "connection" combined_text || str_in "dbtimeout" combined_text
    then (pool_exhaustion,
          (failure_summary ++ ["Database max_connections limit exceeded"])%list,
          append_immediate remediation
            "Increase database max_connections temporarily")
    else (root_cause, failure_summary, remediation) in
  let failure_summary :=
    if str_in "retry" combined_text
    then (failure_summary ++ ["Retry storms amplified database pressure"])%list
    else failure_summary in
  let '(failure_summary, remediation) :=
    if str_in "autoscaling" combined_text
    then ((failure_summary
             ++ ["Application autoscaled without database capacity alignment"])%list,
          append_short_term remediation "Reduce application replica count")
    else (failure_summary, remediation) in
  let remediation :=
    if str_in "deployment" combined_text || str_in "config" combined_text
    then append_immediate remediation "Rollback recent configuration deployment"
    else remediation in
  let remediation := extend_long_term remediation long_term_actions in
  incident_id <- subscript incident "incident_id" ;;
  severity <- subscript incident "severity" ;;
  Ok {| Verdict.incident_id := incident_id;
        Verdict.severity := severity;
        Verdict.root_cause := root_cause;
        Verdict.failure_summary := failure_summary;
        Verdict.recommended_actions := remediation;
        Verdict.confidence := FRepr "0.92" |}.

(* ================================================================== *)
(** ** The rule tables, as the design document words them *)
(* ================================================================== *)

(** One row of an extractor's table: trigger condition on the serialized
    lower-case input, finding string, evidence flag. *)
Record rule : Type := {
  fires : bool;
  finding : string;
  flag : string
}.

Definition log_table (logs_text : string) : list rule :=
  [ {| fires := str_in "timeout" logs_text;
       finding := "Application experienced database timeouts";
       flag := "timeouts" |};
    {| fires := str_in "retry" logs_text;
       finding := "Retry storms detected in application logs";
       flag := "retry_storms" |};
    {| fires := str_in "too many connections" logs_text
                || str_in "connection pool exhausted" logs_text;
       finding := "Database rejected connections due to connection limit";
       flag := "connection_exhaustion" |};
    {| fires := str_in "circuit" logs_text;
       finding := "Circuit breakers activated under load";
       flag := "circuit_breaker" |} ].

Definition metric_table (metrics_text : string) : list rule :=
  [ {| fires := str_in "connection" metrics_text
                && (str_in "1.0" metrics_text || str_in "100" metrics_text);
       finding := "Database active connections reached maximum capacity";
       flag := "db_connection_saturation" |};
    {| fires := str_in "replica" metrics_text || str_in "autoscale" metrics_text;
       finding := "Application autoscaled rapidly under traffic spike";
       flag := "autoscaling_event" |};
    {| fires := str_in "latency" metrics_text || str_in "p99" metrics_text
                || str_in "p95" metrics_text;
       finding := "Latency increased in correlation with load and saturation";
       flag := "latency_spike" |};
    {| fires := str_in "cpu" metrics_text && str_in "low" metrics_text;
       finding := "Database CPU remained underutilized during incident";
       flag := "cpu_not_bottleneck" |} ].

(** The rows whose trigger fired, in table order. *)
Definition fired (table : list rule) : list rule := filter fires table.

Definition fired_findings (table : list rule) : list string :=
  map finding (fired table).

Definition fired_evidence (table : list rule) : list (string * value) :=
  map (fun r => (flag r, VBool true)) (fired table).

(** [[x]] when [b] holds, nothing otherwise. *)
Definition when (b : bool) (x : string) : list string :=
  if b then [x] else [].

(** The synthesizer's accumulated lists as the rule chain describes them. *)
Definition summary_of (text : string) : list string :=
  (when (str_in "connection" text || str_in "dbtimeout" text)
        "Database max_connections limit exceeded"
   ++ when (str_in "retry" text) "Retry storms amplified database pressure"
   ++ when (str_in "autoscaling" text)
        "Application autoscaled without database capacity alignment")%list.

Definition immediate_of (text : string) : list string :=
  (when (str_in "connection" text || str_in "dbtimeout" text)
        "Increase database max_connections temporarily"
   ++ when (str_in "deployment" text || str_in "config" text)
        "Rollback recent configuration deployment")%list.

Definition short_term_of (text : string) : list string :=
  when (str_in "autoscaling" text) "Reduce application replica count".

Definition root_cause_of (text : string) : string :=
  if str_in "connection" text || str_in "dbtimeout" text
  then pool_exhaustion else undetermined.

(** The three role identifiers the selector can emit. *)
Definition known_roles : list string :=
  ["logs_agent"; "metrics_agent"; "deploy_intelligence_agent"].

(** A record reflects a table when its findings are the finding strings of
    the fired rows, its evidence maps exactly the flags of the fired rows to
    [True], and nothing is found unless some row fired. *)
Definition reflects (table : list rule) (r : Findings.t) : Prop :=
  (Findings.findings r <> [] -> exists row, In row table /\ fires row = true) /\
  (forall x, In x (Findings.findings r) <->
             exists row, In row table /\ fires row = true /\ finding row = x) /\
  (forall k v, In (k, v) (Findings.evidence r) <->
               v = VBool true /\
               exists row, In row table /\ fires row = true /\ flag row = k) /\
  NoDup (map fst (Findings.evidence r)).

(** Two runs of an extractor agree: both raise the same exception, or both
    return records equal in every field, the duplicate-free [findings] being
    equal as collections. *)
Definition same_outcome (a b : result Findings.t) : Prop :=
  match a, b with
  | Ok r, Ok r' =>
      Findings.agent r = Findings.agent r' /\
      Findings.incident_id r = Findings.incident_id r' /\
      Permutation (Findings.findings r) (Findings.findings r') /\
      NoDup (Findings.findings r) /\
      NoDup (Findings.findings r') /\
      Findings.evidence r = Findings.evidence r' /\
      Findings.hypothesis r = Findings.hypothesis r' /\
      Findings.confidence r = Findings.confidence r'
  | Raise e, Raise e' => e = e'
  | _, _ => False
  end.

(* ================================================================== *)
(** ** Sample inputs *)
(* ================================================================== *)

Definition sample_incident : value :=
  VDict [("incident_id", VStr "inc-db-5001"); ("severity", VStr "SEV-1")].

(** A payload whose context carries neither logs nor metrics. *)
Definition quiet_payload : value :=
  VDict [("incident", sample_incident); ("context", VDict [])].

(** What [analyze_logs] returns on [quiet_payload]. *)
Definition quiet_log_record : Findings.t :=
  {| Findings.agent := "log_agent";
     Findings.incident_id := VStr "inc-db-5001";
     Findings.findings := [];
     Findings.evidence := [];
     Findings.hypothesis := log_hypothesis;
     Findings.confidence := FRepr "0.93" |}.

(** What [analyze_metrics] returns on [quiet_payload]. *)
Definition quiet_metric_record : Findings.t :=
  {| Findings.agent := "metric_agent";
     Findings.incident_id := VStr "inc-db-5001";
     Findings.findings := [];
     Findings.evidence := [];
     Findings.hypothesis := metric_hypothesis;
     Findings.confidence := FRepr "0.91" |}.

(** A payload with log lines that fire three of the four log triggers,
    the first of them twice. *)
Definition noisy_payload : value :=
  VDict [("incident", sample_incident);
         ("context",
          VDict [("logs",
                  VDict [("application",
                          VList [VStr "DBTimeout: Too many connections";
                                 VStr "timeout again, retry 3"])]);
                 ("metrics",
                  VDict [("database",
                          VDict [("connection_usage", VFloat (FRepr "1.0"));
                                 ("cpu", VStr "LOW")])])])].

(** What [analyze_logs] returns on [noisy_payload] when the set of findings
    is listed in insertion order. *)
Definition noisy_log_record : Findings.t :=
  {| Findings.agent := "log_agent";
     Findings.incident_id := VStr "inc-db-5001";
     Findings.findings :=
       ["Application experienced database timeouts";
        "Retry storms detected in application logs";
        "Database rejected connections due to connection limit"];
     Findings.evidence :=
       [("timeouts", VBool true); ("retry_storms", VBool true);
        ("connection_exhaustion", VBool true)];
     Findings.hypothesis := log_hypothesis;
     Findings.confidence := FRepr "0.93" |}.

(** What [analyze_metrics] returns on [noisy_payload] when the set of
    findings is listed in insertion order. *)
Definition noisy_metric_record : Findings.t :=
  {| Findings.agent := "metric_agent";
     Findings.incident_id := VStr "inc-db-5001";
     Findings.findings :=
       ["Database active connections reached maximum capacity";
        "Database CPU remained underutilized during incident"];
     Findings.evidence :=
       [("db_connection_saturation", VBool true);
        ("cpu_not_bottleneck", VBool true)];
     Findings.hypothesis := metric_hypothesis;
     Findings.confidence := FRepr "0.91" |}.

(** [noisy_payload] with one more log category and one more metric
    category, each firing a trigger of its own. *)
Definition noisier_payload : value :=
  VDict [("incident", sample_incident);
         ("context",
          VDict [("logs",
                  VDict [("application",
                          VList [VStr "DBTimeout: Too many connections";
                                 VStr "timeout again, retry 3"]);
                         ("database",
                          VList [VStr "Circuit breaker OPEN"])]);
                 ("metrics",
                  VDict [("database",
                          VDict [("connection_usage", VFloat (FRepr "1.0"));
                                 ("cpu", VStr "LOW")]);
                         ("application",
                          VDict [("p99_latency_ms", VInt 900)])])])].

(** A payload that has both required keys, its context being [None]. *)
Definition null_context_payload : value :=
  VDict [("incident", sample_incident); ("context", VNone)].


(* ================================================================== *)
(** ** Occurrences inside values *)
(* ================================================================== *)

(** [occurs_in u v]: [u] is [v] itself, an item of a list, the value of a
    dictionary entry, or (as a string) the key of a dictionary entry, at any
    depth of [v]. *)
Inductive occurs_in (u : value) : value -> Prop :=
| occurs_here : occurs_in u u
| occurs_item (v : value) (items : list value) :
    In v items -> occurs_in u v -> occurs_in u (VList items)
| occurs_entry (k : string) (v : value) (entries : list (string * value)) :
    In (k, v) entries -> occurs_in u v -> occurs_in u (VDict entries)
| occurs_key (k : string) (v : value) (entries : list (string * value)) :
    In (k, v) entries -> occurs_in u (VStr k) -> occurs_in u (VDict entries).

(** The character [c] does not occur in [k]. *)
Fixpoint char_free (c : ascii) (k : string) : bool :=
  match k with
  | EmptyString => true
  | String x k' => negb (Ascii.eqb x c) && char_free c k'
  end.

(** The 256 characters. *)
Definition all_chars : list ascii := map ascii_of_nat (seq 0 256).

(** [x] is only ever the lower-case image of characters that [json.dumps]
    copies unescaped. *)
Definition survives_json (x : ascii) : bool :=
  forallb (fun c => negb (Ascii.eqb (lower_char c) x)
                    || String.eqb (json_escape_char c) (String c EmptyString))
          all_chars.

(** [x] is only ever the lower-case image of characters that [repr] copies
    unescaped, whichever quote it picked. *)
Definition survives_repr (x : ascii) : bool :=
  forallb (fun c => negb (Ascii.eqb (lower_char c) x)
                    || (String.eqb (repr_char squote c) (String c EmptyString)
                        && String.eqb (repr_char dquote c) (String c EmptyString)))
          all_chars.

(** A keyword made of such characters only. *)
Fixpoint plain (survives : ascii -> bool) (k : string) : bool :=
  match k with
  | EmptyString => true
  | String x k' => survives x && plain survives k'
  end.

(** A keyword that can be searched for record by record: not empty and
    without the blank that joins the serialized records. *)
Definition searchable (k : string) : bool :=
  negb (String.eqb k EmptyString) && char_free " " k.

(** A keyword that cannot match the braces around a serialized dictionary. *)
Definition unbraced (k : string) : bool :=
  negb (String.eqb k EmptyString) && char_free "{" k && char_free "}" k.

(** Row by row, the second table has the findings and flags of the first and
    fires wherever the first does. *)
Definition fires_more (table table' : list rule) : Prop :=
  Forall2 (fun row row' => finding row = finding row' /\
                           flag row = flag row' /\
                           (fires row = true -> fires row' = true))
          table table'.

(** [list(d.keys())]; a value that is not a dictionary has none. *)
Definition dict_keys (v : value) : list string :=
  match v with
  | VDict d => map fst d
  | _ => []
  end.


(** Which file each loader reads for which category. *)
Definition log_files : list (string * string) :=
  [("high_level", "high_level.json");
   ("application", "application_logs.json");
   ("database", "database_logs.json");
   ("infrastructure", "infrastructure_logs.json")].

Definition metric_files : list (string * string) :=
  [("application", "application_metrics.json");
   ("database", "database_metrics.json");
   ("infrastructure", "infrastructure_metrics.json")].

(** A file system on which a path is the file its segments spell out when
    joined with [/]; every file holds its own name. *)
Definition echo_fs : list string -> Empty_set + value :=
  fun path => inr (VStr (String.concat "/" path)).

(** Joining segments as [/] on paths does: an absolute segment discards
    what precedes it, any other is appended after a slash. *)
Fixpoint join_segments (joined : string) (segments : list string) : string :=
  match segments with
  | [] => joined
  | segment :: rest =>
      join_segments
        (if starts_with "/" segment || String.eqb joined EmptyString
         then segment
         else joined ++ "/" ++ segment)
        rest
  end.

(** A file system that resolves paths so; every file holds its own name. *)
Definition resolving_fs : list string -> Empty_set + value :=
  fun path => inr (VStr (join_segments EmptyString path)).

(** The payload both agent modules assemble for their agent. *)
Definition agent_payload (incident : value) (context : list (string * value))
  (instructions : string) : value :=
  VDict [("incident", incident);
         ("context", VDict context);
         ("instructions", VStr instructions)].

(* ================================================================== *)
(** ** The context loaders *)
(* ================================================================== *)

Section Loaders.

(** Whatever [open] or [json.load] raises. *)
Variable exn : Type.

(** A [Path] is kept as the segments it was built from with [/].  The file
    system is seen through the outcome of [json.load(open(path))], which the
    loaders never write to. *)
Definition filesystem : Type := list string -> exn + value.

Definition load_bind {A B : Type} (r : exn + A) (k : A -> exn + B) : exn + B :=
  match r with
  | inl e => inl e
  | inr a => k a
  end.

Notation "x <~ r ;; k" := (load_bind r (fun x => k))
  (at level 61, r at next level, right associativity).

(** log_agent.py *)
Definition load_log_context (fs : filesystem) (incident_id : string)
  : exn + value :=
  let base := ["mock-data"; "logs"; incident_id] in
  high_level <~ fs (base ++ ["high_level.json"])%list ;;
  application <~ fs (base ++ ["application_logs.json"])%list ;;
  database <~ fs (base ++ ["database_logs.json"])%list ;;
  infrastructure <~ fs (base ++ ["infrastructure_logs.json"])%list ;;
  inr (VDict [("high_level", high_level);
              ("application", application);
              ("database", database);
              ("infrastructure", infrastructure)]).

(** metrics_agent.py *)
Definition load_metric_context (fs : filesystem) (incident_id : string)
  : exn + value :=
  let base := ["mock-data"; "metrics"; incident_id] in
  application <~ fs (base ++ ["application_metrics.json"])%list ;;
  database <~ fs (base ++ ["database_metrics.json"])%list ;;
  infrastructure <~ fs (base ++ ["infrastructure_metrics.json"])%list ;;
  inr (VDict [("application", application);
              ("database", database);
              ("infrastructure", infrastructure)]).

(** commander_agent.py *)
Definition load_context_data (fs : filesystem) : exn + value :=
  let base := ["mock-data"] in
  topology <~ fs (base ++ ["topology/production.json"])%list ;;
  scenario <~ fs (base ++ ["scenarios/inc-db-5001-database-failure.json"])%list ;;
  inr (VDict [("topology", topology);
              ("scenario", scenario);
              ("data_references",
               VDict [("logs",
                       VList [VStr "high_level"; VStr "application";
                              VStr "database"; VStr "infrastructure"]);
                      ("metrics",
                       VList [VStr "application"; VStr "database";
                              VStr "infrastructure"])])]).

(** mock_data_loader.py *)
Definition BASE_PATH : list string := ["mock-data"].

Definition load_json (fs : filesystem) (path : list string) : exn + value :=
  fs path.

Definition load_all_mock_data (fs : filesystem) (incident_id : string)
  : exn + value :=
  topology <~ load_json fs (BASE_PATH ++ ["topology/production.json"])%list ;;
  scenario <~ load_json fs
    (BASE_PATH
     ++ [("scenarios/" ++ incident_id ++ "-database-failure.json")%string])%list ;;
  l_high_level <~ load_json fs
    (BASE_PATH
     ++ [("logs/" ++ incident_id ++ "/high_level.json")%string])%list ;;
  l_application <~ load_json fs
    (BASE_PATH
     ++ [("logs/" ++ incident_id ++ "/application_logs.json")%string])%list ;;
  l_database <~ load_json fs
    (BASE_PATH
     ++ [("logs/" ++ incident_id ++ "/database_logs.json")%string])%list ;;
  l_infrastructure <~ load_json fs
    (BASE_PATH
     ++ [("logs/" ++ incident_id ++ "/infrastructure_logs.json")%string])%list ;;
  m_application <~ load_json fs
    (BASE_PATH
     ++ [("metrics/" ++ incident_id ++ "/application_metrics.json")%string])%list ;;
  m_database <~ load_json fs
    (BASE_PATH
     ++ [("metrics/" ++ incident_id ++ "/database_metrics.json")%string])%list ;;
  m_infrastructure <~ load_json fs
    (BASE_PATH ++ [("metrics/" ++ incident_id
                   ++ "/infrastructure_metrics.json")%string])%list ;;
  inr (VDict [("topology", topology);
              ("scenario", scenario);
              ("logs",
               VDict [("high_level", l_high_level);
                      ("application", l_application);
                      ("database", l_database);
                      ("infrastructure", l_infrastructure)]);
              ("metrics",
               VDict [("application", m_application);
                      ("database", m_database);
                      ("infrastructure", m_infrastructure)])]).

End Loaders.

Arguments load_log_context {exn} fs incident_id.
Arguments load_metric_context {exn} fs incident_id.
Arguments load_context_data {exn} fs.
Arguments load_json {exn} fs path.
Arguments load_all_mock_data {exn} fs incident_id.

(* ================================================================== *)
(** ** Facts about text *)
(* ================================================================== *)

Lemma string_app_assoc (a b c : string) : (a ++ b) ++ c = a ++ b ++ c.
Proof. induction a as [|x a IH]; simpl; [reflexivity | now rewrite IH]. Qed.

Lemma starts_with_app (p s t : string) :
  starts_with p s = true -> starts_with p (s ++ t) = true.
Proof.
  revert s; induction p as [|a p IH]; intros s H; simpl in *.
  - reflexivity.
  - destruct s as [|b s]; simpl in *; [discriminate|].
    apply andb_true_iff in H as [Hab Hps].
    rewrite Hab; simpl; auto.
Qed.

Lemma str_in_app_l (n a b : string) :
  str_in n a = true -> str_in n (a ++ b) = true.
Proof.
  induction a as [|x a IH]; simpl; intros H.
  - rewrite orb_false_r in H.
    destruct n; [destruct b; reflexivity | discriminate].
  - apply orb_true_iff in H as [H|H].
    + change (String x (a ++ b)) with (String x a ++ b).
      rewrite (starts_with_app _ _ _ H); reflexivity.
    + rewrite (IH H); apply orb_true_r.
Qed.

Lemma str_in_app_r (n a b : string) :
  str_in n b = true -> str_in n (a ++ b) = true.
Proof.
  induction a as [|x a IH]; simpl; intros H; [assumption|].
  rewrite (IH H); apply orb_true_r.
Qed.

Lemma str_in_app_mid (n a b c : string) :
  str_in n b = true -> str_in n (a ++ b ++ c) = true.
Proof. intros H; apply str_in_app_r, str_in_app_l, H. Qed.

Lemma lower_app (a b : string) : lower (a ++ b) = lower a ++ lower b.
Proof. induction a as [|x a IH]; simpl; [reflexivity | now rewrite IH]. Qed.

Lemma str_in_concat (n sep x : string) (xs : list string) :
  In x xs -> str_in n x = true -> str_in n (String.concat sep xs) = true.
Proof.
  induction xs as [|y ys IH]; intros Hin Hx; [destruct Hin|].
  destruct Hin as [->|Hin].
  - destruct ys; simpl; [assumption | now apply str_in_app_l].
  - destruct ys as [|z zs]; [destruct Hin|].
    change (String.concat sep (y :: z :: zs))
      with (y ++ sep ++ String.concat sep (z :: zs)).
    apply str_in_app_r, str_in_app_r, IH; assumption.
Qed.

Lemma concat_app_some (sep : string) (xs ys : list string) :
  exists tail, String.concat sep (xs ++ ys) = String.concat sep xs ++ tail.
Proof.
  induction xs as [|x xs IH]; simpl.
  - exists (String.concat sep ys); reflexivity.
  - destruct IH as [tail IH].
    destruct xs as [|x' xs'].
    + destruct ys as [|y ys']; simpl.
      * exists EmptyString. clear. induction x; simpl; congruence.
      * exists (sep ++ String.concat sep (y :: ys')); reflexivity.
    + exists tail.
      change ((x' :: xs') ++ ys)%list with (x' :: (xs' ++ ys))%list in *.
      rewrite IH. now rewrite !string_app_assoc.
Qed.

(** The blob only grows when records are appended. *)
Lemma combined_mono (n : string) (fs gs : list value) :
  str_in n (combined fs) = true -> str_in n (combined (fs ++ gs)) = true.
Proof.
  unfold combined; intros H. rewrite map_app.
  destruct (concat_app_some " " (map (fun f => lower (json_dumps f)) fs)
              (map (fun f => lower (json_dumps f)) gs)) as [tail ->].
  now apply str_in_app_l.
Qed.

(** A keyword of one record is a keyword of the blob. *)
Lemma combined_In (n : string) (f : value) (fs : list value) :
  In f fs -> str_in n (lower (json_dumps f)) = true ->
  str_in n (combined fs) = true.
Proof.
  intros Hin Hf. unfold combined.
  apply str_in_concat with (x := lower (json_dumps f)); [|assumption].
  apply (in_map (fun f => lower (json_dumps f))), Hin.
Qed.

(* ================================================================== *)
(** ** Facts about [list(set(...))] *)
(* ================================================================== *)

Lemma list_of_set_perm (proc : SetOrder) (xs : list string) :
  NoDup xs -> Permutation (list_of_set proc xs) xs.
Proof.
  intros H. apply NoDup_Permutation; [apply list_of_set_NoDup | assumption |].
  apply list_of_set_In.
Qed.

Lemma list_of_set_nil (proc : SetOrder) : list_of_set proc [] = [].
Proof.
  destruct (list_of_set proc []) as [|x l] eqn:E; [reflexivity|].
  exfalso. apply (proj1 (list_of_set_In proc [] x)). rewrite E. now left.
Qed.

Lemma list_of_set_one (proc : SetOrder) (x : string) :
  list_of_set proc [x] = [x].
Proof.
  apply Permutation_length_1_inv, Permutation_sym, list_of_set_perm.
  constructor; [intros [] | constructor].
Qed.

(* ================================================================== *)
(** ** The functions against their tables *)
(* ================================================================== *)

Ltac split_keywords :=
  repeat match goal with
         | |- context [str_in ?k ?t] => destruct (str_in k t)
         end.

(** Case analysis on the conditions of a chain of [trigger] steps, each
    condition taken as a whole. *)
Ltac split_triggers :=
  repeat match goal with
         | |- context [trigger ?c _ _ _] =>
             tryif is_var c then fail
             else (let b := fresh "fired" in generalize c; intros b)
         end;
  repeat match goal with
         | b : bool |- _ => destruct b
         end.

(** [synthesize_verdict] computes the rule chain of [summary_of],
    [immediate_of], [short_term_of] and [root_cause_of]. *)
Lemma synthesize_verdict_eq (incident : value) (agent_findings : list value) :
  synthesize_verdict incident agent_findings =
  (incident_id <- subscript incident "incident_id" ;;
   severity <- subscript incident "severity" ;;
   Ok {| Verdict.incident_id := incident_id;
         Verdict.severity := severity;
         Verdict.root_cause := root_cause_of (combined agent_findings);
         Verdict.failure_summary := summary_of (combined agent_findings);
         Verdict.recommended_actions :=
           {| Verdict.immediate := immediate_of (combined agent_findings);
              Verdict.short_term := short_term_of (combined agent_findings);
              Verdict.long_term := long_term_actions |};
         Verdict.confidence := FRepr "0.92" |}).
Proof.
  unfold synthesize_verdict, root_cause_of, summary_of, immediate_of,
    short_term_of, when.
  generalize (combined agent_findings) as text; intros text.
  split_keywords; reflexivity.
Qed.

Lemma analyze_logs_eq (proc : SetOrder) (input_payload : value) :
  analyze_logs proc input_payload =
  (incident <- subscript input_payload "incident" ;;
   context <- subscript input_payload "context" ;;
   incident_id <- subscript incident "incident_id" ;;
   logs <- py_get context "logs" (VDict []) ;;
   let table := log_table (lower (json_dumps logs)) in
   Ok {| Findings.agent := "log_agent";
         Findings.incident_id := incident_id;
         Findings.findings := list_of_set proc (fired_findings table);
         Findings.evidence := fired_evidence table;
         Findings.hypothesis := log_hypothesis;
         Findings.confidence := FRepr "0.93" |}).
Proof.
  unfold analyze_logs.
  destruct (subscript input_payload "incident") as [incident|];
    cbn [bind]; [|reflexivity].
  destruct (subscript input_payload "context") as [context|];
    cbn [bind]; [|reflexivity].
  destruct (subscript incident "incident_id") as [iid|];
    cbn [bind]; [|reflexivity].
  destruct (py_get context "logs" (VDict [])) as [logs|];
    cbn [bind]; [|reflexivity]. unfold log_table, fired_findings, fired_evidence, fired.
  generalize (lower (json_dumps logs)) as text; intros text.
  split_triggers; reflexivity.
Qed.

Lemma analyze_metrics_eq (proc : SetOrder) (input_payload : value) :
  analyze_metrics proc input_payload =
  (incident <- subscript input_payload "incident" ;;
   context <- subscript input_payload "context" ;;
   incident_id <- subscript incident "incident_id" ;;
   metrics <- py_get context "metrics" (VDict []) ;;
   let table := metric_table (lower (json_dumps metrics)) in
   Ok {| Findings.agent := "metric_agent";
         Findings.incident_id := incident_id;
         Findings.findings := list_of_set proc (fired_findings table);
         Findings.evidence := fired_evidence table;
         Findings.hypothesis := metric_hypothesis;
         Findings.confidence := FRepr "0.91" |}).
Proof.
  unfold analyze_metrics.
  destruct (subscript input_payload "incident") as [incident|];
    cbn [bind]; [|reflexivity].
  destruct (subscript input_payload "context") as [context|];
    cbn [bind]; [|reflexivity].
  destruct (subscript incident "incident_id") as [iid|];
    cbn [bind]; [|reflexivity].
  destruct (py_get context "metrics" (VDict [])) as [metrics|];
    cbn [bind]; [|reflexivity]. unfold metric_table, fired_findings, fired_evidence, fired.
  generalize (lower (json_dumps metrics)) as text; intros text.
  split_triggers; reflexivity.
Qed.

(** Inversion of a successful run of an extractor. *)
Lemma analyze_logs_Ok (proc : SetOrder) (input_payload : value) (r : Findings.t) :
  analyze_logs proc input_payload = Ok r ->
  exists incident context incident_id logs,
    subscript input_payload "incident" = Ok incident /\
    subscript input_payload "context" = Ok context /\
    subscript incident "incident_id" = Ok incident_id /\
    py_get context "logs" (VDict []) = Ok logs /\
    r = {| Findings.agent := "log_agent";
           Findings.incident_id := incident_id;
           Findings.findings :=
             list_of_set proc
               (fired_findings (log_table (lower (json_dumps logs))));
           Findings.evidence :=
             fired_evidence (log_table (lower (json_dumps logs)));
           Findings.hypothesis := log_hypothesis;
           Findings.confidence := FRepr "0.93" |}.
Proof.
  rewrite analyze_logs_eq.
  destruct (subscript input_payload "incident") as [incident|] eqn:E1;
    cbn [bind]; [|discriminate].
  destruct (subscript input_payload "context") as [context|] eqn:E2;
    cbn [bind]; [|discriminate].
  destruct (subscript incident "incident_id") as [iid|] eqn:E3;
    cbn [bind]; [|discriminate].
  destruct (py_get context "logs" (VDict [])) as [logs|] eqn:E4;
    cbn [bind]; [|discriminate].
  intros H; injection H as <-.
  exists incident, context, iid, logs; repeat split; assumption.
Qed.

Lemma analyze_metrics_Ok (proc : SetOrder) (input_payload : value)
  (r : Findings.t) :
  analyze_metrics proc input_payload = Ok r ->
  exists incident context incident_id metrics,
    subscript input_payload "incident" = Ok incident /\
    subscript input_payload "context" = Ok context /\
    subscript incident "incident_id" = Ok incident_id /\
    py_get context "metrics" (VDict []) = Ok metrics /\
    r = {| Findings.agent := "metric_agent";
           Findings.incident_id := incident_id;
           Findings.findings :=
             list_of_set proc
               (fired_findings (metric_table (lower (json_dumps metrics))));
           Findings.evidence :=
             fired_evidence (metric_table (lower (json_dumps metrics)));
           Findings.hypothesis := metric_hypothesis;
           Findings.confidence := FRepr "0.91" |}.
Proof.
  rewrite analyze_metrics_eq.
  destruct (subscript input_payload "incident") as [incident|] eqn:E1;
    cbn [bind]; [|discriminate].
  destruct (subscript input_payload "context") as [context|] eqn:E2;
    cbn [bind]; [|discriminate].
  destruct (subscript incident "incident_id") as [iid|] eqn:E3;
    cbn [bind]; [|discriminate].
  destruct (py_get context "metrics" (VDict [])) as [metrics|] eqn:E4;
    cbn [bind]; [|discriminate].
  intros H; injection H as <-.
  exists incident, context, iid, metrics; repeat split; assumption.
Qed.

(* ================================================================== *)
(** ** Keywords inside serialized dictionaries *)
(* ================================================================== *)

Lemma lower_concat (sep : string) (xs : list string) :
  lower (String.concat sep xs) = String.concat (lower sep) (map lower xs).
Proof.
  induction xs as [|x xs IH]; [reflexivity|].
  destruct xs as [|y ys]; [reflexivity|].
  change (String.concat sep (x :: y :: ys))
    with (x ++ sep ++ String.concat sep (y :: ys)).
  rewrite !lower_app, IH. reflexivity.
Qed.

(** A keyword in the serialization of one entry's value is a keyword in the
    serialization of the dictionary. *)
Lemma json_dumps_entry (n k : string) (v : value) (d : list (string * value)) :
  In (k, v) d ->
  str_in n (lower (json_dumps v)) = true ->
  str_in n (lower (json_dumps (VDict d))) = true.
Proof.
  intros Hin Hv.
  change (json_dumps (VDict d))
    with ("{" ++ String.concat ", "
            (map (fun kv => json_string (fst kv) ++ ": " ++ json_dumps (snd kv)) d)
          ++ "}").
  rewrite !lower_app, lower_concat.
  apply str_in_app_mid.
  apply str_in_concat
    with (x := lower (json_string k ++ ": " ++ json_dumps v)).
  - apply in_map.
    apply (in_map (fun kv => json_string (fst kv) ++ ": " ++ json_dumps (snd kv))
             d (k, v) Hin).
  - rewrite !lower_app. now apply str_in_app_r, str_in_app_r.
Qed.

(** Both fixed hypothesis strings mention "connection", so every record an
    extractor returns does. *)
Lemma extractor_record_mentions_connection (r : Findings.t) :
  Findings.hypothesis r = log_hypothesis \/
  Findings.hypothesis r = metric_hypothesis ->
  str_in "connection" (lower (json_dumps (Findings.to_value r))) = true.
Proof.
  intros H. unfold Findings.to_value.
  apply json_dumps_entry with (k := "hypothesis")
                              (v := VStr (Findings.hypothesis r)).
  - do 4 right; left; reflexivity.
  - destruct H as [-> | ->]; vm_compute; reflexivity.
Qed.

(* ================================================================== *)
(** ** Verdict synthesis on records without triggers *)
(* ================================================================== *)

(** Claim C1, at the records the two extractors return when no trigger fired:
    [findings] and [evidence] are empty, yet the verdict names connection-pool
    exhaustion as root cause and its failure summary has two entries, because
    the fixed hypothesis strings carry "connection" and "autoscaling". *)
Lemma C1_quiet_extractor_records :
  analyze_logs insertion_order quiet_payload = Ok quiet_log_record /\
  analyze_metrics insertion_order quiet_payload = Ok quiet_metric_record /\
  Findings.findings quiet_log_record = [] /\
  Findings.evidence quiet_log_record = [] /\
  Findings.findings quiet_metric_record = [] /\
  Findings.evidence quiet_metric_record = [] /\
  exists v,
    synthesize_verdict sample_incident
      [Findings.to_value quiet_log_record;
       Findings.to_value quiet_metric_record] = Ok v /\
    Verdict.root_cause v <> undetermined /\
    Verdict.failure_summary v =
      ["Database max_connections limit exceeded";
       "Application autoscaled without database capacity alignment"].
Proof.
  do 6 (split; [vm_compute; reflexivity|]).
  eexists. split; [vm_compute; reflexivity|].
  split; [|reflexivity].
  cbn [Verdict.root_cause]. vm_compute. discriminate.
Qed.

(** Claim C1, as amended: for an incident carrying [incident_id] and
    [severity], the verdict always has exactly the three fixed long-term
    actions; and when the lower-case serialization of the findings records
    contains none of "connection", "dbtimeout", "retry" and "autoscaling"
    (as for two empty mappings), the root cause is "Undetermined" and the
    failure summary is empty. *)
Theorem C1_no_keyword_verdict
  (incident : value) (agent_findings : list value) (iid sev : value) :
  subscript incident "incident_id" = Ok iid ->
  subscript incident "severity" = Ok sev ->
  exists v,
    synthesize_verdict incident agent_findings = Ok v /\
    Verdict.long_term (Verdict.recommended_actions v) =
      ["Introduce centralized connection pooling";
       "Implement capacity-aware autoscaling";
       "Add read replicas or shard database workload"] /\
    (str_in "connection" (combined agent_findings) = false ->
     str_in "dbtimeout" (combined agent_findings) = false ->
     str_in "retry" (combined agent_findings) = false ->
     str_in "autoscaling" (combined agent_findings) = false ->
     Verdict.root_cause v = "Undetermined" /\
     Verdict.failure_summary v = []).
Proof.
  intros Hid Hsev. rewrite synthesize_verdict_eq, Hid, Hsev. cbn [bind].
  eexists; split; [reflexivity|]. split; [reflexivity|].
  intros H1 H2 H3 H4.
  cbn [Verdict.root_cause Verdict.failure_summary].
  unfold root_cause_of, summary_of. rewrite H1, H2, H3, H4.
  split; reflexivity.
Qed.

Lemma C1_no_keyword_verdict_witness :
  exists v,
    synthesize_verdict sample_incident [VDict []; VDict []] = Ok v /\
    Verdict.long_term (Verdict.recommended_actions v) =
      ["Introduce centralized connection pooling";
       "Implement capacity-aware autoscaling";
       "Add read replicas or shard database workload"] /\
    Verdict.root_cause v = "Undetermined" /\
    Verdict.failure_summary v = [].
Proof.
  destruct (C1_no_keyword_verdict sample_incident [VDict []; VDict []]
              (VStr "inc-db-5001") (VStr "SEV-1") eq_refl eq_refl)
    as [v [Hv [Hlong Hquiet]]].
  exists v. split; [exact Hv|]. split; [exact Hlong|].
  apply Hquiet; reflexivity.
Defined.

(** Claim C2: whenever the list handed to [synthesize_verdict] holds a record
    returned by [analyze_logs] or by [analyze_metrics] (whatever the payload
    and whichever triggers fired), and the incident carries [incident_id] and
    [severity], the verdict's root cause is the connection-pool-exhaustion
    narrative, not "Undetermined". *)
Theorem C2_extractor_record_forces_root_cause
  (proc : SetOrder) (input_payload : value) (r : Findings.t)
  (incident : value) (agent_findings : list value) (iid sev : value) :
  analyze_logs proc input_payload = Ok r \/
  analyze_metrics proc input_payload = Ok r ->
  In (Findings.to_value r) agent_findings ->
  subscript incident "incident_id" = Ok iid ->
  subscript incident "severity" = Ok sev ->
  exists v,
    synthesize_verdict incident agent_findings = Ok v /\
    Verdict.root_cause v = pool_exhaustion /\
    Verdict.root_cause v <> "Undetermined".
Proof.
  intros Hr Hin Hid Hsev.
  assert (Hhyp : Findings.hypothesis r = log_hypothesis \/
                 Findings.hypothesis r = metric_hypothesis).
  { destruct Hr as [Hr|Hr].
    - apply analyze_logs_Ok in Hr as (? & ? & ? & ? & _ & _ & _ & _ & ->).
      left; reflexivity.
    - apply analyze_metrics_Ok in Hr as (? & ? & ? & ? & _ & _ & _ & _ & ->).
      right; reflexivity. }
  pose proof (combined_In "connection" _ _ Hin
                (extractor_record_mentions_connection r Hhyp)) as Hc.
  rewrite synthesize_verdict_eq, Hid, Hsev. cbn [bind].
  eexists; split; [reflexivity|].
  cbn [Verdict.root_cause]. unfold root_cause_of. rewrite Hc. cbn [orb].
  split; [reflexivity|]. vm_compute. discriminate.
Qed.

Lemma C2_extractor_record_forces_root_cause_witness :
  exists v,
    synthesize_verdict sample_incident
      [VDict []; Findings.to_value quiet_log_record] = Ok v /\
    Verdict.root_cause v = pool_exhaustion /\
    Verdict.root_cause v <> "Undetermined".
Proof.
  apply (C2_extractor_record_forces_root_cause insertion_order quiet_payload
           quiet_log_record sample_incident _
           (VStr "inc-db-5001") (VStr "SEV-1")).
  - left. vm_compute. reflexivity.
  - right; left; reflexivity.
  - reflexivity.
  - reflexivity.
Defined.

(* ================================================================== *)
(** ** The [agent] field *)
(* ================================================================== *)

(** Claim C3, at a concrete payload: the log extractor's record carries
    "log_agent" and the metric extractor's "metric_agent"; neither is one of
    the selector's identifiers "logs_agent" and "metrics_agent". *)
Lemma C3_agent_field_differs :
  exists r m,
    analyze_logs insertion_order quiet_payload = Ok r /\
    analyze_metrics insertion_order quiet_payload = Ok m /\
    Findings.agent r <> "logs_agent" /\
    Findings.agent m <> "metrics_agent" /\
    ~ In (Findings.agent r) known_roles /\
    ~ In (Findings.agent m) known_roles.
Proof.
  exists quiet_log_record, quiet_metric_record.
  repeat split; try (vm_compute; reflexivity); try discriminate;
    cbn; intros H; repeat destruct H as [H|H]; try discriminate H; exact H.
Qed.

(** Claim C3, as amended: every record returned by the log extractor has
    [agent = "log_agent"] and every record returned by the metric extractor
    has [agent = "metric_agent"], the names under which the two agents are
    registered. *)
Theorem C3_agent_field
  (proc : SetOrder) (input_payload : value) (r : Findings.t) :
  (analyze_logs proc input_payload = Ok r -> Findings.agent r = "log_agent") /\
  (analyze_metrics proc input_payload = Ok r ->
   Findings.agent r = "metric_agent").
Proof.
  split; intros Hr.
  - apply analyze_logs_Ok in Hr as (? & ? & ? & ? & _ & _ & _ & _ & ->).
    reflexivity.
  - apply analyze_metrics_Ok in Hr as (? & ? & ? & ? & _ & _ & _ & _ & ->).
    reflexivity.
Qed.

Lemma C3_agent_field_witness :
  Findings.agent quiet_log_record = "log_agent" /\
  Findings.agent quiet_metric_record = "metric_agent".
Proof.
  split.
  - apply (proj1 (C3_agent_field insertion_order quiet_payload quiet_log_record)).
    vm_compute. reflexivity.
  - apply (proj2 (C3_agent_field insertion_order quiet_payload
                    quiet_metric_record)).
    vm_compute. reflexivity.
Defined.

(* ================================================================== *)
(** ** Agent selection *)
(* ================================================================== *)

Lemma In_when (b : bool) (x y : string) : In y (when b x) <-> b = true /\ y = x.
Proof.
  destruct b; simpl; split.
  - intros [<-|[]]; now split.
  - intros [_ ->]; now left.
  - intros [].
  - intros [H _]; discriminate H.
Qed.

Lemma any_in_iff (keys : list string) (text : string) :
  any_in keys text = true <-> exists k, In k keys /\ str_in k text = true.
Proof. unfold any_in. apply existsb_exists. Qed.

Lemma decide_agents_eq (proc : SetOrder) (incident : value) :
  decide_agents proc incident =
  (symptoms <- py_get incident "expected_symptoms" (VDict []) ;;
   let expected := lower (py_str symptoms) in
   incident_id <- subscript incident "incident_id" ;;
   Ok {| Selection.incident_id := incident_id;
         Selection.agents_to_call :=
           list_of_set proc
             (when (any_in logs_keywords expected) "logs_agent"
              ++ when (any_in metrics_keywords expected) "metrics_agent"
              ++ when (any_in deploy_keywords expected)
                   "deploy_intelligence_agent")%list |}).
Proof.
  unfold decide_agents.
  destruct (py_get incident "expected_symptoms" (VDict [])) as [symptoms|];
    cbn [bind]; [|reflexivity].
  generalize (lower (py_str symptoms)) as expected; intros expected.
  destruct (any_in logs_keywords expected),
    (any_in metrics_keywords expected), (any_in deploy_keywords expected);
    reflexivity.
Qed.

(** Claim C4: for an incident carrying [incident_id] (and whose
    [expected_symptoms], when present, is any value), [decide_agents] returns a
    duplicate-free list drawn from the three known roles; each role is present
    exactly when a keyword of its own group occurs in the lower-case text of
    [expected_symptoms], whatever the other groups do; and a text in which the
    only keyword is "release" yields the deploy role alone. *)
Theorem C4_decide_agents_roles
  (proc : SetOrder) (incident symptoms iid : value) :
  py_get incident "expected_symptoms" (VDict []) = Ok symptoms ->
  subscript incident "incident_id" = Ok iid ->
  exists sel,
    decide_agents proc incident = Ok sel /\
    Selection.incident_id sel = iid /\
    incl (Selection.agents_to_call sel)
      ["logs_agent"; "metrics_agent"; "deploy_intelligence_agent"] /\
    NoDup (Selection.agents_to_call sel) /\
    (In "logs_agent" (Selection.agents_to_call sel) <->
     exists k, In k logs_keywords /\ str_in k (lower (py_str symptoms)) = true) /\
    (In "metrics_agent" (Selection.agents_to_call sel) <->
     exists k, In k metrics_keywords /\
               str_in k (lower (py_str symptoms)) = true) /\
    (In "deploy_intelligence_agent" (Selection.agents_to_call sel) <->
     exists k, In k deploy_keywords /\
               str_in k (lower (py_str symptoms)) = true) /\
    (str_in "release" (lower (py_str symptoms)) = true ->
     any_in logs_keywords (lower (py_str symptoms)) = false ->
     any_in metrics_keywords (lower (py_str symptoms)) = false ->
     Selection.agents_to_call sel = ["deploy_intelligence_agent"]).
Proof.
  intros Hsym Hid. rewrite decide_agents_eq, Hsym. cbn [bind]. rewrite Hid.
  cbn [bind]. eexists; split; [reflexivity|].
  cbn [Selection.incident_id Selection.agents_to_call].
  set (expected := lower (py_str symptoms)).
  set (agents := (when _ _ ++ when _ _ ++ when _ _)%list).
  assert (Hmem : forall role, In role (list_of_set proc agents) <->
            (any_in logs_keywords expected = true /\ role = "logs_agent") \/
            (any_in metrics_keywords expected = true /\ role = "metrics_agent") \/
            (any_in deploy_keywords expected = true /\
             role = "deploy_intelligence_agent")).
  { intros role. rewrite list_of_set_In. unfold agents.
    rewrite !in_app_iff, !In_when. reflexivity. }
  split; [reflexivity|]. split; [|split; [apply list_of_set_NoDup|]].
  { intros role Hrole. apply Hmem in Hrole.
    destruct Hrole as [[_ ->]|[[_ ->]|[_ ->]]]; simpl; auto. }
  repeat split.
  - intros H; apply Hmem in H. apply any_in_iff.
    destruct H as [[H _]|[[_ H]|[_ H]]]; [exact H | discriminate H ..].
  - intros H; apply Hmem. left. split; [now apply any_in_iff | reflexivity].
  - intros H; apply Hmem in H. apply any_in_iff.
    destruct H as [[_ H]|[[H _]|[_ H]]]; [discriminate H | exact H | discriminate H].
  - intros H; apply Hmem. right; left.
    split; [now apply any_in_iff | reflexivity].
  - intros H; apply Hmem in H. apply any_in_iff.
    destruct H as [[_ H]|[[_ H]|[H _]]]; [discriminate H .. | exact H].
  - intros H; apply Hmem. right; right.
    split; [now apply any_in_iff | reflexivity].
  - intros Hrel Hlogs Hmetrics. unfold agents. rewrite Hlogs, Hmetrics.
    assert (Hdep : any_in deploy_keywords expected = true).
    { apply any_in_iff. exists "release". split; [|exact Hrel].
      do 3 right; left; reflexivity. }
    rewrite Hdep. apply list_of_set_one.
Qed.

(** An incident whose symptom text holds one word of the deploy group. *)
Lemma C4_decide_agents_roles_witness :
  exists sel,
    decide_agents insertion_order
      (VDict [("incident_id", VStr "inc-db-5001");
              ("expected_symptoms",
               VDict [("application", VList [VStr "Release"])])]) = Ok sel /\
    Selection.agents_to_call sel = ["deploy_intelligence_agent"].
Proof.
  destruct (C4_decide_agents_roles insertion_order
              (VDict [("incident_id", VStr "inc-db-5001");
                      ("expected_symptoms",
                       VDict [("application", VList [VStr "Release"])])])
              (VDict [("application", VList [VStr "Release"])])
              (VStr "inc-db-5001") eq_refl eq_refl)
    as (sel & Hsel & _ & _ & _ & _ & _ & _ & Hrelease).
  exists sel. split; [exact Hsel|].
  apply Hrelease; vm_compute; reflexivity.
Defined.

(* ================================================================== *)
(** ** Verdict synthesis: accumulation *)
(* ================================================================== *)

Lemma when_incl (b b' : bool) (x : string) :
  (b = true -> b' = true) -> incl (when b x) (when b' x).
Proof.
  intros H y Hy. apply In_when in Hy as [Hb ->].
  apply In_when. split; [auto | reflexivity].
Qed.

Lemma either_mono (n m : string) (fs gs : list value) :
  str_in n (combined fs) || str_in m (combined fs) = true ->
  str_in n (combined (fs ++ gs)) || str_in m (combined (fs ++ gs)) = true.
Proof.
  intros H. apply orb_true_iff in H. apply orb_true_iff.
  destruct H as [H|H]; [left|right]; now apply combined_mono.
Qed.

Lemma summary_of_mono (fs gs : list value) :
  incl (summary_of (combined fs)) (summary_of (combined (fs ++ gs))).
Proof.
  unfold summary_of.
  repeat apply incl_app_app; apply when_incl;
    first [apply either_mono | apply combined_mono].
Qed.

Lemma immediate_of_mono (fs gs : list value) :
  incl (immediate_of (combined fs)) (immediate_of (combined (fs ++ gs))).
Proof.
  unfold immediate_of. apply incl_app_app; apply when_incl; apply either_mono.
Qed.

Lemma short_term_of_mono (fs gs : list value) :
  incl (short_term_of (combined fs)) (short_term_of (combined (fs ++ gs))).
Proof. unfold short_term_of. apply when_incl, combined_mono. Qed.

(** Claim C5: if [synthesize_verdict] returns a verdict for a list of findings
    records, it returns one for the list with one more record appended, and
    every entry of the failure summary and of each remediation tier of the
    first verdict is an entry of the same list of the second. *)
Theorem C5_synthesize_monotone
  (incident : value) (agent_findings : list value) (extra : value)
  (v : Verdict.t) :
  synthesize_verdict incident agent_findings = Ok v ->
  exists v',
    synthesize_verdict incident (agent_findings ++ [extra]) = Ok v' /\
    incl (Verdict.failure_summary v) (Verdict.failure_summary v') /\
    incl (Verdict.immediate (Verdict.recommended_actions v))
         (Verdict.immediate (Verdict.recommended_actions v')) /\
    incl (Verdict.short_term (Verdict.recommended_actions v))
         (Verdict.short_term (Verdict.recommended_actions v')) /\
    incl (Verdict.long_term (Verdict.recommended_actions v))
         (Verdict.long_term (Verdict.recommended_actions v')).
Proof.
  rewrite !synthesize_verdict_eq.
  destruct (subscript incident "incident_id") as [iid|];
    cbn [bind]; [|discriminate].
  destruct (subscript incident "severity") as [sev|];
    cbn [bind]; [|discriminate].
  intros H; injection H as <-.
  eexists; split; [reflexivity|].
  cbn [Verdict.failure_summary Verdict.recommended_actions Verdict.immediate
       Verdict.short_term Verdict.long_term].
  split; [apply summary_of_mono|].
  split; [apply immediate_of_mono|].
  split; [apply short_term_of_mono | apply incl_refl].
Qed.

Lemma C5_synthesize_monotone_witness :
  exists v',
    synthesize_verdict sample_incident
      ([VDict [("note", VStr "Retry budget spent")]]
       ++ [Findings.to_value quiet_metric_record]) = Ok v' /\
    In "Retry storms amplified database pressure" (Verdict.failure_summary v').
Proof.
  destruct (C5_synthesize_monotone sample_incident
              [VDict [("note", VStr "Retry budget spent")]]
              (Findings.to_value quiet_metric_record)
              {| Verdict.incident_id := VStr "inc-db-5001";
                 Verdict.severity := VStr "SEV-1";
                 Verdict.root_cause := "Undetermined";
                 Verdict.failure_summary :=
                   ["Retry storms amplified database pressure"];
                 Verdict.recommended_actions :=
                   {| Verdict.immediate := [];
                      Verdict.short_term := [];
                      Verdict.long_term := long_term_actions |};
                 Verdict.confidence := FRepr "0.92" |})
    as (v' & Hv' & Hsum & _).
  - vm_compute. reflexivity.
  - exists v'. split; [exact Hv'|]. apply Hsum. left. reflexivity.
Defined.

(** Claim C6: when the lower-case serialization of the findings records
    contains both "connection" and "retry" (and the incident carries its two
    required keys), the failure summary starts with the connection-pool entry
    followed by the retry-storm entry. *)
Theorem C6_connection_before_retry
  (incident : value) (agent_findings : list value) (iid sev : value) :
  subscript incident "incident_id" = Ok iid ->
  subscript incident "severity" = Ok sev ->
  str_in "connection" (combined agent_findings) = true ->
  str_in "retry" (combined agent_findings) = true ->
  exists v rest,
    synthesize_verdict incident agent_findings = Ok v /\
    Verdict.failure_summary v =
      "Database max_connections limit exceeded"
      :: "Retry storms amplified database pressure" :: rest /\
    ~ In "Database max_connections limit exceeded" rest /\
    ~ In "Retry storms amplified database pressure" rest.
Proof.
  intros Hid Hsev Hc Hr. rewrite synthesize_verdict_eq, Hid, Hsev. cbn [bind].
  eexists. exists (when (str_in "autoscaling" (combined agent_findings))
                     "Application autoscaled without database capacity alignment").
  split; [reflexivity|].
  cbn [Verdict.failure_summary]. unfold summary_of. rewrite Hc, Hr.
  split; [reflexivity|].
  split; intros H; apply In_when in H as [_ H]; discriminate H.
Qed.

Lemma C6_connection_before_retry_witness :
  exists v rest,
    synthesize_verdict sample_incident
      [VDict [("findings",
               VList [VStr "Connection refused"; VStr "Retry storm"])]] = Ok v /\
    Verdict.failure_summary v =
      "Database max_connections limit exceeded"
      :: "Retry storms amplified database pressure" :: rest /\
    ~ In "Database max_connections limit exceeded" rest /\
    ~ In "Retry storms amplified database pressure" rest.
Proof.
  apply (C6_connection_before_retry sample_incident _
           (VStr "inc-db-5001") (VStr "SEV-1"));
    vm_compute; reflexivity.
Defined.

(* ================================================================== *)
(** ** Evidence extraction *)
(* ================================================================== *)

Lemma In_fired (table : list rule) (row : rule) :
  In row (fired table) <-> In row table /\ fires row = true.
Proof. apply filter_In. Qed.

(** Whatever the table, the record built from its fired rows reflects it,
    provided the flags of the table are pairwise distinct. *)
Lemma fired_reflects (proc : SetOrder) (table : list rule)
  (a : string) (i : value) (h : string) (c : pyfloat) :
  NoDup (map flag table) ->
  reflects table
    {| Findings.agent := a;
       Findings.incident_id := i;
       Findings.findings := list_of_set proc (fired_findings table);
       Findings.evidence := fired_evidence table;
       Findings.hypothesis := h;
       Findings.confidence := c |}.
Proof.
  intros Hflags. unfold reflects.
  cbn [Findings.findings Findings.evidence].
  assert (Hfind : forall x, In x (list_of_set proc (fired_findings table)) <->
            exists row, In row table /\ fires row = true /\ finding row = x).
  { intros x. rewrite list_of_set_In. unfold fired_findings.
    rewrite in_map_iff. split.
    - intros (row & <- & Hrow). apply In_fired in Hrow as [Hin Hf].
      exists row; auto.
    - intros (row & Hin & Hf & <-). exists row. split; [reflexivity|].
      apply In_fired; auto. }
  split; [|split; [exact Hfind|split]].
  - intros Hne.
    destruct (list_of_set proc (fired_findings table)) as [|x l] eqn:E;
      [contradiction|].
    destruct (proj1 (Hfind x) (or_introl eq_refl)) as (row & Hin & Hf & _).
    exists row; auto.
  - intros k v. unfold fired_evidence. rewrite in_map_iff. split.
    + intros (row & Heq & Hrow). injection Heq as <- <-.
      apply In_fired in Hrow as [Hin Hf]. split; [reflexivity|].
      exists row; auto.
    + intros (-> & row & Hin & Hf & <-). exists row.
      split; [reflexivity | apply In_fired; auto].
  - unfold fired_evidence, fired. rewrite map_map. cbn [fst].
    clear Hfind.
    induction table as [|row table IH]; [constructor|].
    inversion Hflags as [|? ? Hnot Hrest]; subst.
    cbn [filter]. destruct (fires row); [|exact (IH Hrest)].
    cbn [map]. constructor; [|exact (IH Hrest)].
    intros Hin. apply Hnot. apply in_map_iff in Hin as (row' & Heq & Hrow').
    apply in_map_iff. exists row'. split; [exact Heq|].
    apply filter_In in Hrow'. tauto.
Qed.

Lemma log_table_flags (text : string) : NoDup (map flag (log_table text)).
Proof.
  cbn [log_table map flag].
  repeat (constructor;
          [cbn [In]; intros H; repeat destruct H as [H|H];
           try discriminate H; exact H|]).
  constructor.
Qed.

Lemma metric_table_flags (text : string) : NoDup (map flag (metric_table text)).
Proof.
  cbn [metric_table map flag].
  repeat (constructor;
          [cbn [In]; intros H; repeat destruct H as [H|H];
           try discriminate H; exact H|]).
  constructor.
Qed.

(** Claim C7: a record returned by the log extractor reflects the log table
    evaluated on the lower-case serialization of [context.get("logs", {})]:
    its findings are non-empty only if a trigger fired, its evidence holds
    exactly the flags of the fired triggers, each mapped to [True], and its
    hypothesis and confidence are the constants of the log extractor (0.93);
    likewise for the metric extractor, its table and 0.91. *)
Theorem C7_extractor_reflects_table
  (proc : SetOrder) (input_payload : value) (r : Findings.t) :
  (analyze_logs proc input_payload = Ok r ->
   exists context logs,
     subscript input_payload "context" = Ok context /\
     py_get context "logs" (VDict []) = Ok logs /\
     reflects (log_table (lower (json_dumps logs))) r /\
     Findings.hypothesis r = log_hypothesis /\
     Findings.confidence r = FRepr "0.93") /\
  (analyze_metrics proc input_payload = Ok r ->
   exists context metrics,
     subscript input_payload "context" = Ok context /\
     py_get context "metrics" (VDict []) = Ok metrics /\
     reflects (metric_table (lower (json_dumps metrics))) r /\
     Findings.hypothesis r = metric_hypothesis /\
     Findings.confidence r = FRepr "0.91").
Proof.
  split; intros Hr.
  - apply analyze_logs_Ok in Hr
      as (incident & context & iid & logs & _ & Hctx & _ & Hlogs & ->).
    exists context, logs. split; [assumption|]. split; [assumption|].
    split; [apply fired_reflects, log_table_flags|]. split; reflexivity.
  - apply analyze_metrics_Ok in Hr
      as (incident & context & iid & metrics & _ & Hctx & _ & Hmet & ->).
    exists context, metrics. split; [assumption|]. split; [assumption|].
    split; [apply fired_reflects, metric_table_flags|]. split; reflexivity.
Qed.

Lemma C7_extractor_reflects_table_witness :
  (analyze_logs insertion_order noisy_payload = Ok noisy_log_record /\
   exists context logs,
     subscript noisy_payload "context" = Ok context /\
     py_get context "logs" (VDict []) = Ok logs /\
     reflects (log_table (lower (json_dumps logs))) noisy_log_record /\
     Findings.hypothesis noisy_log_record = log_hypothesis /\
     Findings.confidence noisy_log_record = FRepr "0.93") /\
  (analyze_metrics insertion_order noisy_payload = Ok noisy_metric_record /\
   exists context metrics,
     subscript noisy_payload "context" = Ok context /\
     py_get context "metrics" (VDict []) = Ok metrics /\
     reflects (metric_table (lower (json_dumps metrics))) noisy_metric_record /\
     Findings.hypothesis noisy_metric_record = metric_hypothesis /\
     Findings.confidence noisy_metric_record = FRepr "0.91").
Proof.
  assert (Hlogs : analyze_logs insertion_order noisy_payload
                  = Ok noisy_log_record) by (vm_compute; reflexivity).
  assert (Hmetrics : analyze_metrics insertion_order noisy_payload
                     = Ok noisy_metric_record) by (vm_compute; reflexivity).
  split; (split; [assumption|]).
  - exact (proj1 (C7_extractor_reflects_table insertion_order noisy_payload
                    noisy_log_record) Hlogs).
  - exact (proj2 (C7_extractor_reflects_table insertion_order noisy_payload
                    noisy_metric_record) Hmetrics).
Defined.

(** Claim C8, at a payload that has the [incident] key, with an
    [incident_id], and the [context] key, the context being [None]: both
    extractors raise [AttributeError] at [context.get] and return no record. *)
Lemma C8_null_context_raises :
  (exists incident iid,
     subscript null_context_payload "incident" = Ok incident /\
     subscript incident "incident_id" = Ok iid /\
     subscript null_context_payload "context" = Ok VNone) /\
  analyze_logs insertion_order null_context_payload = Raise AttributeError /\
  analyze_metrics insertion_order null_context_payload = Raise AttributeError /\
  ~ (exists r, analyze_logs insertion_order null_context_payload = Ok r) /\
  ~ (exists r, analyze_metrics insertion_order null_context_payload = Ok r).
Proof.
  split; [exists sample_incident, (VStr "inc-db-5001"); repeat split|].
  split; [reflexivity|]. split; [reflexivity|].
  split; intros [r Hr]; discriminate Hr.
Qed.

(** Claim C8, as amended: on a payload that carries an [incident] with an
    [incident_id] and a [context] that is a mapping, both extractors return a
    record; when the context has no "logs" key the log extractor's record
    has empty findings and empty evidence, and when it has no "metrics" key
    so has the metric extractor's. *)
Theorem C8_extraction_returns
  (proc : SetOrder) (input_payload incident iid : value)
  (context : list (string * value)) :
  subscript input_payload "incident" = Ok incident ->
  subscript incident "incident_id" = Ok iid ->
  subscript input_payload "context" = Ok (VDict context) ->
  (exists r,
     analyze_logs proc input_payload = Ok r /\
     Findings.incident_id r = iid /\
     (lookup "logs" context = None ->
      Findings.findings r = [] /\ Findings.evidence r = [])) /\
  (exists r,
     analyze_metrics proc input_payload = Ok r /\
     Findings.incident_id r = iid /\
     (lookup "metrics" context = None ->
      Findings.findings r = [] /\ Findings.evidence r = [])).
Proof.
  intros Hinc Hid Hctx. split.
  - rewrite analyze_logs_eq, Hinc. cbn [bind]. rewrite Hctx. cbn [bind].
    rewrite Hid. cbn [bind py_get].
    destruct (lookup "logs" context) as [logs|]; cbn [bind];
      eexists; (split; [reflexivity|]); (split; [reflexivity|]);
      intros H; [discriminate H|].
    cbn [Findings.findings Findings.evidence].
    change (fired_findings (log_table (lower (json_dumps (VDict [])))))
      with (@nil string).
    rewrite list_of_set_nil. split; reflexivity.
  - rewrite analyze_metrics_eq, Hinc. cbn [bind]. rewrite Hctx. cbn [bind].
    rewrite Hid. cbn [bind py_get].
    destruct (lookup "metrics" context) as [metrics|]; cbn [bind];
      eexists; (split; [reflexivity|]); (split; [reflexivity|]);
      intros H; [discriminate H|].
    cbn [Findings.findings Findings.evidence].
    change (fired_findings (metric_table (lower (json_dumps (VDict [])))))
      with (@nil string).
    rewrite list_of_set_nil. split; reflexivity.
Qed.

Lemma C8_extraction_returns_witness :
  (exists r,
     analyze_logs reverse_order quiet_payload = Ok r /\
     Findings.incident_id r = VStr "inc-db-5001" /\
     Findings.findings r = [] /\ Findings.evidence r = []) /\
  (exists r,
     analyze_metrics reverse_order quiet_payload = Ok r /\
     Findings.incident_id r = VStr "inc-db-5001" /\
     Findings.findings r = [] /\ Findings.evidence r = []).
Proof.
  destruct (C8_extraction_returns reverse_order quiet_payload sample_incident
              (VStr "inc-db-5001") [] eq_refl eq_refl eq_refl)
    as [(r & Hr & Hid & Hquiet) (m & Hm & Hmid & Hmquiet)].
  split.
  - exists r. split; [exact Hr|]. split; [exact Hid|]. apply Hquiet. reflexivity.
  - exists m. split; [exact Hm|]. split; [exact Hmid|]. apply Hmquiet.
    reflexivity.
Defined.

(* ================================================================== *)
(** ** Determinism of extraction *)
(* ================================================================== *)

Lemma list_of_set_any_order (proc proc' : SetOrder) (xs : list string) :
  Permutation (list_of_set proc xs) (list_of_set proc' xs).
Proof.
  apply NoDup_Permutation; try apply list_of_set_NoDup.
  intros x. rewrite !list_of_set_In. reflexivity.
Qed.

(** The order of [findings] does depend on the process: the two sample
    enumerations list the findings of [noisy_payload] in opposite orders. *)
Remark findings_order_depends_on_process :
  exists r r',
    analyze_logs insertion_order noisy_payload = Ok r /\
    analyze_logs reverse_order noisy_payload = Ok r' /\
    Findings.findings r' = rev (Findings.findings r) /\
    Findings.findings r' <> Findings.findings r.
Proof.
  eexists; eexists.
  split; [vm_compute; reflexivity|]. split; [vm_compute; reflexivity|].
  split; [reflexivity|]. cbn [Findings.findings]. discriminate.
Qed.

(** Claim C9: two runs of an extractor on the same input end alike, whatever
    order each run lists its set of findings in: the same exception, or
    records equal field by field whose findings hold the same strings, none
    of them twice.  Two runs that list sets in the same order, as two runs
    in one process do, return identical records. *)
Theorem C9_extract_deterministic
  (proc proc' : SetOrder) (input_payload : value) :
  same_outcome (analyze_logs proc input_payload)
               (analyze_logs proc' input_payload) /\
  same_outcome (analyze_metrics proc input_payload)
               (analyze_metrics proc' input_payload) /\
  ((forall xs, list_of_set proc xs = list_of_set proc' xs) ->
   analyze_logs proc input_payload = analyze_logs proc' input_payload /\
   analyze_metrics proc input_payload = analyze_metrics proc' input_payload).
Proof.
  rewrite !analyze_logs_eq, !analyze_metrics_eq.
  destruct (subscript input_payload "incident") as [incident|];
    cbn [bind]; [|repeat split; reflexivity].
  destruct (subscript input_payload "context") as [context|];
    cbn [bind]; [|repeat split; reflexivity].
  destruct (subscript incident "incident_id") as [iid|];
    cbn [bind]; [|repeat split; reflexivity].
  split; [|split].
  - destruct (py_get context "logs" (VDict [])) as [logs|];
      cbn [bind same_outcome]; [|reflexivity].
    cbn [Findings.agent Findings.incident_id Findings.findings
         Findings.evidence Findings.hypothesis Findings.confidence].
    repeat split;
      first [apply list_of_set_any_order | apply list_of_set_NoDup].
  - destruct (py_get context "metrics" (VDict [])) as [metrics|];
      cbn [bind same_outcome]; [|reflexivity].
    cbn [Findings.agent Findings.incident_id Findings.findings
         Findings.evidence Findings.hypothesis Findings.confidence].
    repeat split;
      first [apply list_of_set_any_order | apply list_of_set_NoDup].
  - intros Hsame. split.
    + destruct (py_get context "logs" (VDict [])) as [logs|];
        cbn [bind]; [|reflexivity].
      rewrite Hsame. reflexivity.
    + destruct (py_get context "metrics" (VDict [])) as [metrics|];
        cbn [bind]; [|reflexivity].
      rewrite Hsame. reflexivity.
Qed.

Lemma C9_extract_deterministic_witness :
  same_outcome (analyze_logs insertion_order noisy_payload)
               (analyze_logs reverse_order noisy_payload) /\
  analyze_logs insertion_order noisy_payload
  = analyze_logs insertion_order noisy_payload.
Proof.
  split.
  - apply (C9_extract_deterministic insertion_order reverse_order noisy_payload).
  - apply (proj2 (proj2 (C9_extract_deterministic insertion_order
                           insertion_order noisy_payload))).
    intros xs. reflexivity.
Defined.

(* ================================================================== *)
(** ** Missing identity fields *)
(* ================================================================== *)

(** Claim C10: on an incident mapping without [incident_id], [decide_agents]
    raises [KeyError] and returns nothing; on an incident mapping without
    [incident_id] or without [severity], [synthesize_verdict] raises
    [KeyError] for the first of the two that is missing, whatever the
    findings. *)
Theorem C10_missing_identity_raises
  (proc : SetOrder) (incident : list (string * value))
  (agent_findings : list value) :
  (lookup "incident_id" incident = None ->
   decide_agents proc (VDict incident) = Raise (KeyError "incident_id") /\
   synthesize_verdict (VDict incident) agent_findings
   = Raise (KeyError "incident_id")) /\
  (lookup "severity" incident = None ->
   synthesize_verdict (VDict incident) agent_findings
   = Raise (KeyError (match lookup "incident_id" incident with
                      | Some _ => "severity"
                      | None => "incident_id"
                      end))).
Proof.
  split.
  - intros Hid. split.
    + rewrite decide_agents_eq. cbn [py_get].
      destruct (lookup "expected_symptoms" incident);
        cbn [bind subscript]; rewrite Hid; reflexivity.
    + rewrite synthesize_verdict_eq. cbn [subscript]. rewrite Hid. reflexivity.
  - intros Hsev. rewrite synthesize_verdict_eq. cbn [subscript].
    destruct (lookup "incident_id" incident); cbn [bind]; [|reflexivity].
    rewrite Hsev. reflexivity.
Qed.

Lemma C10_missing_identity_raises_witness :
  decide_agents insertion_order
    (VDict [("severity", VStr "SEV-1");
            ("expected_symptoms", VStr "retry storms")])
  = Raise (KeyError "incident_id") /\
  synthesize_verdict
    (VDict [("severity", VStr "SEV-1");
            ("expected_symptoms", VStr "retry storms")])
    [Findings.to_value quiet_log_record]
  = Raise (KeyError "incident_id") /\
  synthesize_verdict (VDict [("incident_id", VStr "inc-db-5001")])
    [Findings.to_value quiet_log_record]
  = Raise (KeyError "severity").
Proof.
  split; [|split].
  - apply (proj1 (C10_missing_identity_raises insertion_order
                    [("severity", VStr "SEV-1");
                     ("expected_symptoms", VStr "retry storms")] [])).
    reflexivity.
  - apply (proj1 (C10_missing_identity_raises insertion_order
                    [("severity", VStr "SEV-1");
                     ("expected_symptoms", VStr "retry storms")]
                    [Findings.to_value quiet_log_record])).
    reflexivity.
  - apply (proj2 (C10_missing_identity_raises insertion_order
                    [("incident_id", VStr "inc-db-5001")]
                    [Findings.to_value quiet_log_record])).
    reflexivity.
Defined.

(* ================================================================== *)
(** ** Keywords and separators *)
(* ================================================================== *)

Lemma char_free_head (c x : ascii) (k : string) :
  char_free c (String x k) = true -> Ascii.eqb x c = false /\ char_free c k = true.
Proof.
  cbn [char_free]. intros H. apply andb_true_iff in H as [Hx Hk].
  split; [now apply negb_true_iff | exact Hk].
Qed.

(** A match of [k] cannot run over a character [k] does not have. *)
Lemma starts_with_app_sep (k a b : string) (c : ascii) :
  char_free c k = true ->
  starts_with k (a ++ String c b) = starts_with k a.
Proof.
  revert a; induction k as [|x k IH]; intros a Hfree; [reflexivity|].
  apply char_free_head in Hfree as [Hx Hk].
  destruct a as [|y a]; cbn [append starts_with].
  - rewrite Hx. reflexivity.
  - rewrite (IH a Hk). reflexivity.
Qed.

Lemma str_in_app_sep (k a b : string) (c : ascii) :
  char_free c k = true ->
  str_in k (a ++ String c b) = str_in k a || str_in k b.
Proof.
  intros Hfree. induction a as [|y a IH].
  - cbn [append]. cbn [str_in].
    change (String c b) with (EmptyString ++ String c b) at 1.
    rewrite (starts_with_app_sep k EmptyString b c Hfree).
    rewrite orb_false_r. reflexivity.
  - change (String y a ++ String c b) with (String y (a ++ String c b)).
    cbn [str_in]. rewrite IH.
    change (String y (a ++ String c b)) with (String y a ++ String c b).
    rewrite (starts_with_app_sep k (String y a) b c Hfree).
    now rewrite !orb_assoc.
Qed.

Lemma str_in_empty (k : string) :
  String.eqb k EmptyString = false -> str_in k EmptyString = false.
Proof. destruct k; [discriminate | reflexivity]. Qed.

(** In a text joined with a character the keyword does not have, the keyword
    is found exactly when one of the joined pieces has it. *)
Lemma str_in_concat_sep (k : string) (c : ascii) (xs : list string) :
  String.eqb k EmptyString = false ->
  char_free c k = true ->
  str_in k (String.concat (String c EmptyString) xs) = existsb (str_in k) xs.
Proof.
  intros Hne Hfree. induction xs as [|x xs IH].
  - now apply str_in_empty.
  - destruct xs as [|y ys].
    + cbn [String.concat existsb]. now rewrite orb_false_r.
    + change (String.concat (String c EmptyString) (x :: y :: ys))
        with (x ++ String c (String.concat (String c EmptyString) (y :: ys))).
      rewrite (str_in_app_sep k x _ c Hfree), IH. reflexivity.
Qed.

Lemma searchable_parts (k : string) :
  searchable k = true ->
  String.eqb k EmptyString = false /\ char_free " " k = true.
Proof.
  unfold searchable. intros H.
  apply andb_true_iff in H as [H1 H2]. apply negb_true_iff in H1. auto.
Qed.

Lemma unbraced_parts (k : string) :
  unbraced k = true ->
  String.eqb k EmptyString = false /\
  char_free "{" k = true /\ char_free "}" k = true.
Proof.
  unfold unbraced. intros H.
  apply andb_true_iff in H as [H H3]. apply andb_true_iff in H as [H1 H2].
  apply negb_true_iff in H1. auto.
Qed.

(** The blob has a keyword exactly when one of the records has it. *)
Lemma str_in_combined (k : string) (agent_findings : list value) :
  searchable k = true ->
  str_in k (combined agent_findings)
  = existsb (fun f => str_in k (lower (json_dumps f))) agent_findings.
Proof.
  intros Hk. apply searchable_parts in Hk as (Hne & Hsp).
  unfold combined. rewrite (str_in_concat_sep k " " _ Hne Hsp).
  induction agent_findings as [|f fs IH]; [reflexivity|].
  cbn [map existsb]. now rewrite IH.
Qed.

Lemma existsb_same_elements {A : Type} (p : A -> bool) (xs ys : list A) :
  (forall x, In x xs <-> In x ys) -> existsb p xs = existsb p ys.
Proof.
  intros H.
  destruct (existsb p xs) eqn:Ex; destruct (existsb p ys) eqn:Ey;
    try reflexivity.
  - apply existsb_exists in Ex as (x & Hin & Hp).
    rewrite <- Ey. symmetry. apply existsb_exists.
    exists x. split; [now apply H | exact Hp].
  - apply existsb_exists in Ey as (x & Hin & Hp).
    rewrite <- Ex. apply existsb_exists.
    exists x. split; [now apply H | exact Hp].
Qed.

Lemma combined_same_elements (k : string) (fs gs : list value) :
  searchable k = true ->
  (forall f, In f fs <-> In f gs) ->
  str_in k (combined fs) = str_in k (combined gs).
Proof.
  intros Hk H. rewrite !(str_in_combined k _ Hk).
  now apply existsb_same_elements.
Qed.

(** X1.  The verdict depends on which records were handed in, not on their
    order nor on how often each occurs: two lists with the same elements give
    the same outcome, verdict or exception. *)
Theorem synthesize_verdict_same_records
  (incident : value) (agent_findings agent_findings' : list value) :
  (forall f, In f agent_findings <-> In f agent_findings') ->
  synthesize_verdict incident agent_findings
  = synthesize_verdict incident agent_findings'.
Proof.
  intros H. rewrite !synthesize_verdict_eq.
  unfold root_cause_of, summary_of, immediate_of, short_term_of.
  rewrite (combined_same_elements "connection" _ _ eq_refl H),
    (combined_same_elements "dbtimeout" _ _ eq_refl H),
    (combined_same_elements "retry" _ _ eq_refl H),
    (combined_same_elements "autoscaling" _ _ eq_refl H),
    (combined_same_elements "deployment" _ _ eq_refl H),
    (combined_same_elements "config" _ _ eq_refl H).
  reflexivity.
Qed.

Lemma synthesize_verdict_same_records_witness :
  synthesize_verdict sample_incident
    [Findings.to_value quiet_log_record; Findings.to_value noisy_log_record]
  = synthesize_verdict sample_incident
      [Findings.to_value noisy_log_record; Findings.to_value quiet_log_record;
       Findings.to_value noisy_log_record].
Proof.
  apply synthesize_verdict_same_records.
  intros f; cbn [In]; tauto.
Defined.

(* ================================================================== *)
(** ** Keywords under serialization *)
(* ================================================================== *)

Lemma all_chars_complete (c : ascii) : In c all_chars.
Proof.
  unfold all_chars. rewrite <- (ascii_nat_embedding c).
  apply in_map, in_seq. split; [apply Nat.le_0_l|].
  apply nat_ascii_bounded.
Qed.

Lemma survives_json_spec (x c : ascii) :
  survives_json x = true -> lower_char c = x ->
  json_escape_char c = String c EmptyString.
Proof.
  unfold survives_json. intros H Hc.
  rewrite forallb_forall in H. specialize (H c (all_chars_complete c)).
  rewrite Hc, Ascii.eqb_refl in H. cbn [negb orb] in H.
  now apply String.eqb_eq.
Qed.

Lemma survives_repr_spec (x c : ascii) (quote : string) :
  survives_repr x = true -> lower_char c = x ->
  quote = squote \/ quote = dquote ->
  repr_char quote c = String c EmptyString.
Proof.
  unfold survives_repr. intros H Hc Hq.
  rewrite forallb_forall in H. specialize (H c (all_chars_complete c)).
  rewrite Hc, Ascii.eqb_refl in H. cbn [negb orb] in H.
  apply andb_true_iff in H as [Hs Hd].
  destruct Hq as [-> | ->]; now apply String.eqb_eq.
Qed.

Section Escaped.

(** An escaping pass, character by character, that leaves alone every
    character a plain keyword can match. *)
Variable survives : ascii -> bool.
Variable escape_char : ascii -> string.
Hypothesis escape_char_plain :
  forall x c, survives x = true -> lower_char c = x ->
              escape_char c = String c EmptyString.

Fixpoint escape (s : string) : string :=
  match s with
  | EmptyString => EmptyString
  | String c s' => escape_char c ++ escape s'
  end.

Lemma starts_with_escape (k s : string) :
  plain survives k = true ->
  starts_with k (lower s) = true ->
  starts_with k (lower (escape s)) = true.
Proof.
  revert s; induction k as [|x k IH]; intros s Hk H; [reflexivity|].
  cbn [plain] in Hk. apply andb_true_iff in Hk as [Hx Hk].
  destruct s as [|c s]; [discriminate H|].
  cbn [lower starts_with] in H. apply andb_true_iff in H as [Hc Hs].
  apply Ascii.eqb_eq in Hc.
  cbn [escape]. rewrite (escape_char_plain x c Hx (eq_sym Hc)).
  cbn [append lower starts_with].
  rewrite <- Hc, Ascii.eqb_refl. cbn [andb]. now apply IH.
Qed.

Lemma str_in_escape (k s : string) :
  plain survives k = true ->
  str_in k (lower s) = true ->
  str_in k (lower (escape s)) = true.
Proof.
  intros Hk. induction s as [|c s IH]; intros H; [exact H|].
  cbn [lower str_in] in H. apply orb_true_iff in H as [H|H].
  - change (String (lower_char c) (lower s)) with (lower (String c s)) in H.
    pose proof (starts_with_escape k (String c s) Hk H) as Hs.
    destruct (lower (escape (String c s))); cbn [str_in]; now rewrite Hs.
  - cbn [escape]. rewrite lower_app. apply str_in_app_r. now apply IH.
Qed.

End Escaped.

Lemma json_escape_is_escape (s : string) :
  json_escape s = escape json_escape_char s.
Proof. induction s as [|c s IH]; cbn; [reflexivity | now rewrite IH]. Qed.

Lemma repr_chars_is_escape (quote s : string) :
  repr_chars quote s = escape (repr_char quote) s.
Proof. induction s as [|c s IH]; cbn; [reflexivity | now rewrite IH]. Qed.

(** A plain keyword found in a string, in either letter case, is found in
    the lower-cased JSON text of that string. *)
Lemma keyword_in_json_string (k s : string) :
  plain survives_json k = true ->
  str_in k (lower s) = true ->
  str_in k (lower (json_dumps (VStr s))) = true.
Proof.
  intros Hk H. cbn [json_dumps]. unfold json_string.
  rewrite !lower_app. apply str_in_app_mid.
  rewrite json_escape_is_escape.
  apply (str_in_escape survives_json json_escape_char survives_json_spec);
    assumption.
Qed.

Lemma repr_quote_cases (s : string) :
  repr_quote s = squote \/ repr_quote s = dquote.
Proof. unfold repr_quote. destruct (_ && _); auto. Qed.

Lemma keyword_in_repr_string (k s : string) :
  plain survives_repr k = true ->
  str_in k (lower s) = true ->
  str_in k (lower (py_repr (VStr s))) = true.
Proof.
  intros Hk H. cbn [py_repr]. unfold repr_string.
  rewrite !lower_app. apply str_in_app_mid.
  rewrite repr_chars_is_escape.
  apply (str_in_escape survives_repr (repr_char (repr_quote s))); try assumption.
  intros x c Hx Hc. apply (survives_repr_spec x c _ Hx Hc), repr_quote_cases.
Qed.

Section Printed.

(** What [json_dumps] and [py_repr] share: a list prints its items and a
    dictionary its keys and values between delimiters, joined by [", "]. *)
Variable print : value -> string.
Variable print_key : string -> string.
Hypothesis print_list : forall items,
  print (VList items) = "[" ++ String.concat ", " (map print items) ++ "]".
Hypothesis print_dict : forall entries,
  print (VDict entries)
  = "{" ++ String.concat ", "
             (map (fun kv => print_key (fst kv) ++ ": " ++ print (snd kv))
                  entries) ++ "}".
Hypothesis print_key_str : forall k, print (VStr k) = print_key k.

Lemma printed_occurrence (n : string) (u v : value) :
  occurs_in u v ->
  str_in n (lower (print u)) = true ->
  str_in n (lower (print v)) = true.
Proof.
  intros Hocc Hu. induction Hocc as
    [ | v items Hin Hocc IH | k v entries Hin Hocc IH
      | k v entries Hin Hocc IH ].
  - exact Hu.
  - rewrite print_list, !lower_app, lower_concat. apply str_in_app_mid.
    apply str_in_concat with (x := lower (print v)); [|exact IH].
    apply in_map, in_map, Hin.
  - rewrite print_dict, !lower_app, lower_concat. apply str_in_app_mid.
    apply str_in_concat
      with (x := lower (print_key k ++ ": " ++ print v)).
    + apply in_map.
      apply (in_map (fun kv => print_key (fst kv) ++ ": " ++ print (snd kv))
               entries (k, v) Hin).
    + rewrite !lower_app. now apply str_in_app_r, str_in_app_r.
  - rewrite print_dict, !lower_app, lower_concat. apply str_in_app_mid.
    apply str_in_concat
      with (x := lower (print_key k ++ ": " ++ print v)).
    + apply in_map.
      apply (in_map (fun kv => print_key (fst kv) ++ ": " ++ print (snd kv))
               entries (k, v) Hin).
    + rewrite !lower_app, <- print_key_str. now apply str_in_app_l.
Qed.

End Printed.

(** A keyword of the JSON text of anything that occurs in [v] is a keyword
    of the JSON text of [v]. *)
Lemma json_occurrence (n : string) (u v : value) :
  occurs_in u v ->
  str_in n (lower (json_dumps u)) = true ->
  str_in n (lower (json_dumps v)) = true.
Proof.
  apply (printed_occurrence json_dumps json_string); reflexivity.
Qed.

Lemma repr_occurrence (n : string) (u v : value) :
  occurs_in u v ->
  str_in n (lower (py_repr u)) = true ->
  str_in n (lower (py_repr v)) = true.
Proof.
  apply (printed_occurrence py_repr repr_string); reflexivity.
Qed.

(** A plain keyword found, in either letter case, in a string that occurs
    anywhere in [v] is found in the lower-cased JSON text of [v]. *)
Lemma keyword_in_json (k s : string) (v : value) :
  plain survives_json k = true ->
  occurs_in (VStr s) v ->
  str_in k (lower s) = true ->
  str_in k (lower (json_dumps v)) = true.
Proof.
  intros Hk Hocc Hs. apply (json_occurrence k (VStr s) v Hocc).
  now apply keyword_in_json_string.
Qed.

(** The same for [str]: a string prints as itself at the top and quoted
    below. *)
Lemma keyword_in_str (k s : string) (v : value) :
  plain survives_repr k = true ->
  occurs_in (VStr s) v ->
  str_in k (lower s) = true ->
  str_in k (lower (py_str v)) = true.
Proof.
  intros Hk Hocc Hs.
  assert (Hrepr : str_in k (lower (py_repr v)) = true).
  { apply (repr_occurrence k (VStr s) v Hocc).
    now apply keyword_in_repr_string. }
  destruct v; try exact Hrepr.
  inversion Hocc; subst. exact Hs.
Qed.

(* ================================================================== *)
(** ** What the rule chain detects *)
(* ================================================================== *)

Lemma combined_keyword (k s : string) (f : value) (agent_findings : list value) :
  plain survives_json k = true ->
  In f agent_findings ->
  occurs_in (VStr s) f ->
  str_in k (lower s) = true ->
  str_in k (combined agent_findings) = true.
Proof.
  intros Hk Hin Hocc Hs. apply (combined_In k f _ Hin).
  now apply (keyword_in_json k s f).
Qed.

(** X2.  A string that occurs anywhere in any findings record, as a value or
    as a key and at any depth, fires every rule one of whose keywords it
    contains in either letter case: "connection" or "dbtimeout" set the root
    cause and add the max_connections entries, "retry" adds the retry-storm
    entry, "autoscaling" the alignment entry and the replica action,
    "deployment" or "config" the rollback action. *)
Theorem synthesize_verdict_detects
  (incident iid sev : value) (agent_findings : list value)
  (f : value) (s : string) :
  subscript incident "incident_id" = Ok iid ->
  subscript incident "severity" = Ok sev ->
  In f agent_findings ->
  occurs_in (VStr s) f ->
  exists v,
    synthesize_verdict incident agent_findings = Ok v /\
    (str_in "connection" (lower s) = true \/ str_in "dbtimeout" (lower s) = true ->
     Verdict.root_cause v = pool_exhaustion /\
     In "Database max_connections limit exceeded" (Verdict.failure_summary v) /\
     In "Increase database max_connections temporarily"
        (Verdict.immediate (Verdict.recommended_actions v))) /\
    (str_in "retry" (lower s) = true ->
     In "Retry storms amplified database pressure" (Verdict.failure_summary v)) /\
    (str_in "autoscaling" (lower s) = true ->
     In "Application autoscaled without database capacity alignment"
        (Verdict.failure_summary v) /\
     In "Reduce application replica count"
        (Verdict.short_term (Verdict.recommended_actions v))) /\
    (str_in "deployment" (lower s) = true \/ str_in "config" (lower s) = true ->
     In "Rollback recent configuration deployment"
        (Verdict.immediate (Verdict.recommended_actions v))).
Proof.
  intros Hid Hsev Hin Hocc.
  rewrite synthesize_verdict_eq, Hid, Hsev. cbn [bind].
  eexists; split; [reflexivity|].
  cbn [Verdict.root_cause Verdict.failure_summary Verdict.recommended_actions
       Verdict.immediate Verdict.short_term].
  unfold root_cause_of, summary_of, immediate_of, short_term_of.
  pose proof (fun k Hk => combined_keyword k s f agent_findings Hk Hin Hocc)
    as Hfound.
  assert (Hany : forall k k', plain survives_json k = true ->
            plain survives_json k' = true ->
            str_in k (lower s) = true \/ str_in k' (lower s) = true ->
            str_in k (combined agent_findings)
            || str_in k' (combined agent_findings) = true).
  { intros k k' Hk Hk' H. apply orb_true_iff.
    destruct H as [H|H]; [left|right]; now apply Hfound. }
  split; [|split; [|split]].
  - intros H. rewrite (Hany "connection" "dbtimeout" eq_refl eq_refl H).
    split; [reflexivity|]. split; apply in_or_app; left; now left.
  - intros H. rewrite (Hfound "retry" eq_refl H).
    apply in_or_app; right. apply in_or_app; left. now left.
  - intros H. rewrite (Hfound "autoscaling" eq_refl H).
    split; [|now left].
    apply in_or_app; right. apply in_or_app; right. now left.
  - intros H. rewrite (Hany "deployment" "config" eq_refl eq_refl H).
    apply in_or_app; right. now left.
Qed.

Lemma synthesize_verdict_detects_witness :
  exists v,
    synthesize_verdict sample_incident
      [VDict [("deploy", VList [VDict [("Config-Change", VNone)]])]] = Ok v /\
    In "Rollback recent configuration deployment"
       (Verdict.immediate (Verdict.recommended_actions v)).
Proof.
  destruct (synthesize_verdict_detects sample_incident
              (VStr "inc-db-5001") (VStr "SEV-1")
              [VDict [("deploy", VList [VDict [("Config-Change", VNone)]])]]
              (VDict [("deploy", VList [VDict [("Config-Change", VNone)]])])
              "Config-Change" eq_refl eq_refl (or_introl eq_refl))
    as (v & Hv & _ & _ & _ & Hroll).
  - apply (occurs_entry _ "deploy" (VList [VDict [("Config-Change", VNone)]]));
      [left; reflexivity|].
    apply (occurs_item _ (VDict [("Config-Change", VNone)]));
      [left; reflexivity|].
    apply (occurs_key _ "Config-Change" VNone); [left; reflexivity|].
    apply occurs_here.
  - exists v. split; [exact Hv|]. apply Hroll. right. reflexivity.
Defined.

(* ================================================================== *)
(** ** What the extractors detect *)
(* ================================================================== *)

Lemma fired_row_reported (proc : SetOrder) (table : list rule) (row : rule) :
  In row table -> fires row = true ->
  In (finding row) (list_of_set proc (fired_findings table)) /\
  In (flag row, VBool true) (fired_evidence table).
Proof.
  intros Hin Hf. split.
  - apply list_of_set_In. unfold fired_findings. apply in_map.
    apply In_fired; auto.
  - unfold fired_evidence.
    apply (in_map (fun r => (flag r, VBool true))). apply In_fired; auto.
Qed.

(** X3.  The log extractor reads its triggers off any string that occurs
    anywhere in the logs, as a value or as a key, at any depth and in either
    letter case: each keyword found there puts the corresponding finding and
    evidence flag in the record. *)
Theorem analyze_logs_detects
  (proc : SetOrder) (input_payload context logs : value) (r : Findings.t)
  (s : string) :
  analyze_logs proc input_payload = Ok r ->
  subscript input_payload "context" = Ok context ->
  py_get context "logs" (VDict []) = Ok logs ->
  occurs_in (VStr s) logs ->
  (str_in "timeout" (lower s) = true ->
   In "Application experienced database timeouts" (Findings.findings r) /\
   In ("timeouts", VBool true) (Findings.evidence r)) /\
  (str_in "retry" (lower s) = true ->
   In "Retry storms detected in application logs" (Findings.findings r) /\
   In ("retry_storms", VBool true) (Findings.evidence r)) /\
  (str_in "too many connections" (lower s) = true \/
   str_in "connection pool exhausted" (lower s) = true ->
   In "Database rejected connections due to connection limit"
      (Findings.findings r) /\
   In ("connection_exhaustion", VBool true) (Findings.evidence r)) /\
  (str_in "circuit" (lower s) = true ->
   In "Circuit breakers activated under load" (Findings.findings r) /\
   In ("circuit_breaker", VBool true) (Findings.evidence r)).
Proof.
  intros Hr Hctx Hlogs Hocc.
  apply analyze_logs_Ok in Hr
    as (incident & context' & iid & logs' & _ & Hctx' & _ & Hlogs' & ->).
  rewrite Hctx in Hctx'. injection Hctx' as <-.
  rewrite Hlogs in Hlogs'. injection Hlogs' as <-.
  cbn [Findings.findings Findings.evidence].
  pose proof (fun k Hk Hs => keyword_in_json k s logs Hk Hocc Hs) as Hfound.
  set (table := log_table (lower (json_dumps logs))).
  split; [|split; [|split]]; intros H.
  - apply (fired_row_reported proc table _ (or_introl eq_refl)).
    cbn [fires]. now apply Hfound.
  - apply (fired_row_reported proc table _ (or_intror (or_introl eq_refl))).
    cbn [fires]. now apply Hfound.
  - apply (fired_row_reported proc table _
             (or_intror (or_intror (or_introl eq_refl)))).
    cbn [fires]. apply orb_true_iff.
    destruct H as [H|H]; [left|right]; now apply Hfound.
  - apply (fired_row_reported proc table _
             (or_intror (or_intror (or_intror (or_introl eq_refl))))).
    cbn [fires]. now apply Hfound.
Qed.

Lemma analyze_logs_detects_witness :
  In "Application experienced database timeouts"
     (Findings.findings noisy_log_record) /\
  In ("timeouts", VBool true) (Findings.evidence noisy_log_record).
Proof.
  apply (analyze_logs_detects insertion_order noisy_payload
           (VDict [("logs",
                    VDict [("application",
                            VList [VStr "DBTimeout: Too many connections";
                                   VStr "timeout again, retry 3"])]);
                   ("metrics",
                    VDict [("database",
                            VDict [("connection_usage", VFloat (FRepr "1.0"));
                                   ("cpu", VStr "LOW")])])])
           (VDict [("application",
                    VList [VStr "DBTimeout: Too many connections";
                           VStr "timeout again, retry 3"])])
           noisy_log_record "DBTimeout: Too many connections").
  - vm_compute. reflexivity.
  - reflexivity.
  - reflexivity.
  - apply (occurs_entry _ "application"
             (VList [VStr "DBTimeout: Too many connections";
                     VStr "timeout again, retry 3"])); [left; reflexivity|].
    apply (occurs_item _ (VStr "DBTimeout: Too many connections"));
      [left; reflexivity|].
    apply occurs_here.
  - reflexivity.
Defined.

(** X4.  The metric extractor reads its triggers off whatever occurs anywhere
    in the metrics: a string mentioning "connection" together with the integer
    100 or a float printed 1.0 reports connection saturation; a string
    mentioning "replica" or "autoscale" reports an autoscaling event; one
    mentioning "latency", "p99" or "p95" a latency spike; and strings
    mentioning "cpu" and "low" an idle database CPU. *)
Theorem analyze_metrics_detects
  (proc : SetOrder) (input_payload context metrics : value) (r : Findings.t)
  (s s' : string) :
  analyze_metrics proc input_payload = Ok r ->
  subscript input_payload "context" = Ok context ->
  py_get context "metrics" (VDict []) = Ok metrics ->
  occurs_in (VStr s) metrics ->
  occurs_in (VStr s') metrics ->
  (str_in "connection" (lower s) = true ->
   occurs_in (VInt 100) metrics \/ occurs_in (VFloat (FRepr "1.0")) metrics ->
   In "Database active connections reached maximum capacity"
      (Findings.findings r) /\
   In ("db_connection_saturation", VBool true) (Findings.evidence r)) /\
  (str_in "replica" (lower s) = true \/ str_in "autoscale" (lower s) = true ->
   In "Application autoscaled rapidly under traffic spike"
      (Findings.findings r) /\
   In ("autoscaling_event", VBool true) (Findings.evidence r)) /\
  (str_in "latency" (lower s) = true \/ str_in "p99" (lower s) = true \/
   str_in "p95" (lower s) = true ->
   In "Latency increased in correlation with load and saturation"
      (Findings.findings r) /\
   In ("latency_spike", VBool true) (Findings.evidence r)) /\
  (str_in "cpu" (lower s) = true -> str_in "low" (lower s') = true ->
   In "Database CPU remained underutilized during incident"
      (Findings.findings r) /\
   In ("cpu_not_bottleneck", VBool true) (Findings.evidence r)).
Proof.
  intros Hr Hctx Hmet Hocc Hocc'.
  apply analyze_metrics_Ok in Hr
    as (incident & context' & iid & metrics' & _ & Hctx' & _ & Hmet' & ->).
  rewrite Hctx in Hctx'. injection Hctx' as <-.
  rewrite Hmet in Hmet'. injection Hmet' as <-.
  cbn [Findings.findings Findings.evidence].
  pose proof (fun k Hk Hs => keyword_in_json k s metrics Hk Hocc Hs) as Hfound.
  pose proof (fun k Hk Hs => keyword_in_json k s' metrics Hk Hocc' Hs)
    as Hfound'.
  set (table := metric_table (lower (json_dumps metrics))).
  split; [|split; [|split]].
  - intros H Hfull.
    apply (fired_row_reported proc table _ (or_introl eq_refl)).
    cbn [fires]. apply andb_true_iff. split; [now apply Hfound|].
    apply orb_true_iff. destruct Hfull as [Hfull|Hfull]; [right|left].
    + apply (json_occurrence "100" _ _ Hfull). reflexivity.
    + apply (json_occurrence "1.0" _ _ Hfull). reflexivity.
  - intros H.
    apply (fired_row_reported proc table _ (or_intror (or_introl eq_refl))).
    cbn [fires]. apply orb_true_iff.
    destruct H as [H|H]; [left|right]; now apply Hfound.
  - intros H.
    apply (fired_row_reported proc table _
             (or_intror (or_intror (or_introl eq_refl)))).
    cbn [fires]. rewrite !orb_true_iff.
    destruct H as [H|[H|H]]; [left; left|left; right|right]; now apply Hfound.
  - intros H H'.
    apply (fired_row_reported proc table _
             (or_intror (or_intror (or_intror (or_introl eq_refl))))).
    cbn [fires]. apply andb_true_iff.
    split; [now apply Hfound | now apply Hfound'].
Qed.

(** The metrics of [noisy_payload]. *)
Lemma analyze_metrics_detects_witness :
  exists r,
    analyze_metrics reverse_order noisy_payload = Ok r /\
    In "Database CPU remained underutilized during incident"
       (Findings.findings r) /\
    In ("cpu_not_bottleneck", VBool true) (Findings.evidence r).
Proof.
  destruct (analyze_metrics reverse_order noisy_payload) as [r|e] eqn:Hr;
    [|discriminate Hr].
  exists r. split; [reflexivity|].
  apply (analyze_metrics_detects reverse_order noisy_payload
           (VDict [("logs",
                    VDict [("application",
                            VList [VStr "DBTimeout: Too many connections";
                                   VStr "timeout again, retry 3"])]);
                   ("metrics",
                    VDict [("database",
                            VDict [("connection_usage", VFloat (FRepr "1.0"));
                                   ("cpu", VStr "LOW")])])])
           (VDict [("database",
                    VDict [("connection_usage", VFloat (FRepr "1.0"));
                           ("cpu", VStr "LOW")])])
           r "cpu" "LOW" Hr eq_refl eq_refl).
  - apply (occurs_entry _ "database"
             (VDict [("connection_usage", VFloat (FRepr "1.0"));
                     ("cpu", VStr "LOW")])); [left; reflexivity|].
    apply (occurs_key _ "cpu" (VStr "LOW")); [right; left; reflexivity|].
    apply occurs_here.
  - apply (occurs_entry _ "database"
             (VDict [("connection_usage", VFloat (FRepr "1.0"));
                     ("cpu", VStr "LOW")])); [left; reflexivity|].
    apply (occurs_entry _ "cpu" (VStr "LOW")); [right; left; reflexivity|].
    apply occurs_here.
  - reflexivity.
  - reflexivity.
Defined.

(* ================================================================== *)
(** ** From extractor to verdict *)
(* ================================================================== *)

Lemma finding_occurs (r : Findings.t) (x : string) :
  In x (Findings.findings r) -> occurs_in (VStr x) (Findings.to_value r).
Proof.
  intros Hin. unfold Findings.to_value.
  apply (occurs_entry _ "findings" (VList (map VStr (Findings.findings r))));
    [do 2 right; left; reflexivity|].
  apply (occurs_item _ (VStr x)); [now apply in_map | apply occurs_here].
Qed.

(** X5.  Any list of findings that holds a record returned by the metric
    extractor makes the synthesizer report the autoscaling misalignment and
    recommend reducing the replica count, whatever the metrics were: the fixed
    hypothesis of the metric extractor ends in "autoscaling". *)
Theorem metric_record_forces_autoscaling_rule
  (proc : SetOrder) (input_payload : value) (r : Findings.t)
  (incident iid sev : value) (agent_findings : list value) :
  analyze_metrics proc input_payload = Ok r ->
  In (Findings.to_value r) agent_findings ->
  subscript incident "incident_id" = Ok iid ->
  subscript incident "severity" = Ok sev ->
  exists v,
    synthesize_verdict incident agent_findings = Ok v /\
    In "Application autoscaled without database capacity alignment"
       (Verdict.failure_summary v) /\
    Verdict.short_term (Verdict.recommended_actions v)
    = ["Reduce application replica count"].
Proof.
  intros Hr Hin Hid Hsev.
  apply analyze_metrics_Ok in Hr as (? & ? & ? & ? & _ & _ & _ & _ & ->).
  assert (Ha : str_in "autoscaling" (combined agent_findings) = true).
  { apply (combined_In _ _ _ Hin). unfold Findings.to_value.
    apply json_dumps_entry with (k := "hypothesis")
                                (v := VStr metric_hypothesis).
    - do 4 right; left; reflexivity.
    - vm_compute. reflexivity. }
  rewrite synthesize_verdict_eq, Hid, Hsev. cbn [bind].
  eexists; split; [reflexivity|].
  cbn [Verdict.failure_summary Verdict.recommended_actions Verdict.short_term].
  unfold summary_of, short_term_of. rewrite Ha. split; [|reflexivity].
  apply in_or_app; right. apply in_or_app; right. now left.
Qed.

Lemma metric_record_forces_autoscaling_rule_witness :
  exists v,
    synthesize_verdict sample_incident [Findings.to_value quiet_metric_record]
    = Ok v /\
    In "Application autoscaled without database capacity alignment"
       (Verdict.failure_summary v) /\
    Verdict.short_term (Verdict.recommended_actions v)
    = ["Reduce application replica count"].
Proof.
  apply (metric_record_forces_autoscaling_rule insertion_order quiet_payload
           quiet_metric_record sample_incident
           (VStr "inc-db-5001") (VStr "SEV-1")).
  - vm_compute. reflexivity.
  - left. reflexivity.
  - reflexivity.
  - reflexivity.
Defined.

(** X6.  Retry storms carry through the pipeline: when a string anywhere in
    the logs mentions "retry", in either letter case, every verdict synthesized
    from a list holding the log extractor's record has the retry-storm entry
    in its failure summary. *)
Theorem retry_in_logs_reaches_verdict
  (proc : SetOrder) (input_payload context logs : value) (r : Findings.t)
  (s : string) (incident iid sev : value) (agent_findings : list value) :
  analyze_logs proc input_payload = Ok r ->
  subscript input_payload "context" = Ok context ->
  py_get context "logs" (VDict []) = Ok logs ->
  occurs_in (VStr s) logs ->
  str_in "retry" (lower s) = true ->
  In (Findings.to_value r) agent_findings ->
  subscript incident "incident_id" = Ok iid ->
  subscript incident "severity" = Ok sev ->
  exists v,
    synthesize_verdict incident agent_findings = Ok v /\
    In "Retry storms amplified database pressure" (Verdict.failure_summary v).
Proof.
  intros Hr Hctx Hlogs Hocc Hs Hin Hid Hsev.
  assert (Hfinding : In "Retry storms detected in application logs"
                        (Findings.findings r)).
  { apply analyze_logs_Ok in Hr
      as (incident' & context' & iid' & logs' & _ & Hctx' & _ & Hlogs' & ->).
    rewrite Hctx in Hctx'. injection Hctx' as <-.
    rewrite Hlogs in Hlogs'. injection Hlogs' as <-.
    cbn [Findings.findings].
    apply (fired_row_reported proc (log_table (lower (json_dumps logs))) _
             (or_intror (or_introl eq_refl))).
    cbn [fires]. now apply (keyword_in_json "retry" s logs). }
  assert (Hc : str_in "retry" (combined agent_findings) = true).
  { apply (combined_keyword "retry" _ _ _ eq_refl Hin
             (finding_occurs r _ Hfinding)).
    reflexivity. }
  rewrite synthesize_verdict_eq, Hid, Hsev. cbn [bind].
  eexists; split; [reflexivity|].
  cbn [Verdict.failure_summary]. unfold summary_of. rewrite Hc.
  apply in_or_app; right. apply in_or_app; left. now left.
Qed.

Lemma retry_in_logs_reaches_verdict_witness :
  exists v,
    synthesize_verdict sample_incident
      [VDict []; Findings.to_value noisy_log_record] = Ok v /\
    In "Retry storms amplified database pressure" (Verdict.failure_summary v).
Proof.
  apply (retry_in_logs_reaches_verdict insertion_order noisy_payload
           (VDict [("logs",
                    VDict [("application",
                            VList [VStr "DBTimeout: Too many connections";
                                   VStr "timeout again, retry 3"])]);
                   ("metrics",
                    VDict [("database",
                            VDict [("connection_usage", VFloat (FRepr "1.0"));
                                   ("cpu", VStr "LOW")])])])
           (VDict [("application",
                    VList [VStr "DBTimeout: Too many connections";
                           VStr "timeout again, retry 3"])])
           noisy_log_record "timeout again, retry 3" sample_incident
           (VStr "inc-db-5001") (VStr "SEV-1")).
  - vm_compute. reflexivity.
  - reflexivity.
  - reflexivity.
  - apply (occurs_entry _ "application"
             (VList [VStr "DBTimeout: Too many connections";
                     VStr "timeout again, retry 3"])); [left; reflexivity|].
    apply (occurs_item _ (VStr "timeout again, retry 3"));
      [right; left; reflexivity|].
    apply occurs_here.
  - reflexivity.
  - right; left; reflexivity.
  - reflexivity.
  - reflexivity.
Defined.

(* ================================================================== *)
(** ** Extraction only grows with the input *)
(* ================================================================== *)

(** Between its braces, the text of a dictionary is the joined text of its
    entries; a keyword without braces is found in one exactly when it is
    found in the other. *)
Lemma str_in_braces (k body : string) :
  unbraced k = true ->
  str_in k ("{" ++ body ++ "}") = str_in k body.
Proof.
  intros Hk. apply unbraced_parts in Hk as (Hne & Hopen & Hclose).
  change ("{" ++ body ++ "}") with (EmptyString ++ String "{" (body ++ "}")).
  rewrite (str_in_app_sep k EmptyString _ "{" Hopen).
  rewrite (str_in_app_sep k body EmptyString "}" Hclose).
  rewrite (str_in_empty k Hne). now rewrite orb_false_r.
Qed.

Lemma dict_text_grows (k : string) (d extra : list (string * value)) :
  unbraced k = true ->
  str_in k (lower (json_dumps (VDict d))) = true ->
  str_in k (lower (json_dumps (VDict (d ++ extra)))) = true.
Proof.
  intros Hk.
  change (json_dumps (VDict d))
    with ("{" ++ String.concat ", "
            (map (fun kv => json_string (fst kv) ++ ": " ++ json_dumps (snd kv)) d)
          ++ "}").
  change (json_dumps (VDict (d ++ extra)))
    with ("{" ++ String.concat ", "
            (map (fun kv => json_string (fst kv) ++ ": " ++ json_dumps (snd kv))
                 (d ++ extra))
          ++ "}").
  rewrite !lower_app.
  change (lower "{") with "{". change (lower "}") with "}".
  rewrite !(str_in_braces k _ Hk). rewrite map_app.
  destruct (concat_app_some ", "
              (map (fun kv => json_string (fst kv) ++ ": " ++ json_dumps (snd kv)) d)
              (map (fun kv => json_string (fst kv) ++ ": " ++ json_dumps (snd kv))
                   extra)) as [tail ->].
  rewrite lower_app. apply str_in_app_l.
Qed.

Lemma orb_grows (a b a' b' : bool) :
  (a = true -> a' = true) -> (b = true -> b' = true) ->
  a || b = true -> a' || b' = true.
Proof. destruct a, b, a', b'; cbn; auto. Qed.

Lemma andb_grows (a b a' b' : bool) :
  (a = true -> a' = true) -> (b = true -> b' = true) ->
  a && b = true -> a' && b' = true.
Proof. destruct a, b, a', b'; cbn; auto. Qed.

Lemma fires_more_findings (table table' : list rule) :
  fires_more table table' ->
  incl (fired_findings table) (fired_findings table') /\
  incl (fired_evidence table) (fired_evidence table').
Proof.
  unfold fired_findings, fired_evidence, fired.
  induction 1 as [|row row' table table' (Hfinding & Hflag & Hfires) _ [IHf IHe]];
    [split; apply incl_refl|].
  cbn [filter]. destruct (fires row) eqn:Hrow.
  - rewrite (Hfires eq_refl). cbn [map]. rewrite Hfinding, Hflag.
    split; apply incl_cons; try (now left);
      apply incl_tl; assumption.
  - destruct (fires row'); cbn [map]; split;
      try assumption; apply incl_tl; assumption.
Qed.

Lemma log_table_grows (text text' : string) :
  (forall k, unbraced k = true -> str_in k text = true -> str_in k text' = true) ->
  fires_more (log_table text) (log_table text').
Proof.
  intros H. unfold fires_more, log_table.
  repeat (constructor;
          [cbn [finding flag fires]; split; [reflexivity|];
           split; [reflexivity|];
           repeat first [apply orb_grows | apply andb_grows];
           apply H; reflexivity|]).
  constructor.
Qed.

Lemma metric_table_grows (text text' : string) :
  (forall k, unbraced k = true -> str_in k text = true -> str_in k text' = true) ->
  fires_more (metric_table text) (metric_table text').
Proof.
  intros H. unfold fires_more, metric_table.
  repeat (constructor;
          [cbn [finding flag fires]; split; [reflexivity|];
           split; [reflexivity|];
           repeat first [apply orb_grows | apply andb_grows];
           apply H; reflexivity|]).
  constructor.
Qed.

(** X7.  Log categories appended to the "logs" mapping never cost the log
    extractor a finding or an evidence flag: whatever it reports on the
    smaller mapping it reports on the larger one. *)
Theorem analyze_logs_grows
  (proc : SetOrder) (input_payload input_payload' context context' : value)
  (logs extra : list (string * value)) (r r' : Findings.t) :
  analyze_logs proc input_payload = Ok r ->
  analyze_logs proc input_payload' = Ok r' ->
  subscript input_payload "context" = Ok context ->
  py_get context "logs" (VDict []) = Ok (VDict logs) ->
  subscript input_payload' "context" = Ok context' ->
  py_get context' "logs" (VDict []) = Ok (VDict (logs ++ extra)) ->
  incl (Findings.findings r) (Findings.findings r') /\
  incl (Findings.evidence r) (Findings.evidence r').
Proof.
  intros Hr Hr' Hctx Hlogs Hctx' Hlogs'.
  apply analyze_logs_Ok in Hr as (? & c & ? & l & _ & Hc & _ & Hl & ->).
  apply analyze_logs_Ok in Hr' as (? & c' & ? & l' & _ & Hc' & _ & Hl' & ->).
  rewrite Hctx in Hc. injection Hc as <-.
  rewrite Hlogs in Hl. injection Hl as <-.
  rewrite Hctx' in Hc'. injection Hc' as <-.
  rewrite Hlogs' in Hl'. injection Hl' as <-.
  cbn [Findings.findings Findings.evidence].
  destruct (fires_more_findings _ _
              (log_table_grows _ _
                 (fun k Hk => dict_text_grows k logs extra Hk)))
    as [Hf He].
  split; [|exact He].
  intros entry Hentry. apply list_of_set_In. apply Hf.
  now apply list_of_set_In in Hentry.
Qed.

(** From [noisy_payload], three findings, to [noisier_payload]. *)
Lemma analyze_logs_grows_witness :
  exists r',
    analyze_logs insertion_order noisier_payload = Ok r' /\
    length (Findings.findings noisy_log_record) = 3 /\
    incl (Findings.findings noisy_log_record) (Findings.findings r') /\
    incl (Findings.evidence noisy_log_record) (Findings.evidence r').
Proof.
  destruct (analyze_logs insertion_order noisier_payload) as [r'|e] eqn:Hr';
    [|discriminate Hr'].
  exists r'. split; [reflexivity|]. split; [reflexivity|].
  apply (analyze_logs_grows insertion_order noisy_payload noisier_payload
           (VDict [("logs",
                    VDict [("application",
                            VList [VStr "DBTimeout: Too many connections";
                                   VStr "timeout again, retry 3"])]);
                   ("metrics",
                    VDict [("database",
                            VDict [("connection_usage", VFloat (FRepr "1.0"));
                                   ("cpu", VStr "LOW")])])])
           (VDict [("logs",
                    VDict [("application",
                            VList [VStr "DBTimeout: Too many connections";
                                   VStr "timeout again, retry 3"]);
                           ("database",
                            VList [VStr "Circuit breaker OPEN"])]);
                   ("metrics",
                    VDict [("database",
                            VDict [("connection_usage", VFloat (FRepr "1.0"));
                                   ("cpu", VStr "LOW")]);
                           ("application",
                            VDict [("p99_latency_ms", VInt 900)])])])
           [("application",
             VList [VStr "DBTimeout: Too many connections";
                    VStr "timeout again, retry 3"])]
           [("database", VList [VStr "Circuit breaker OPEN"])]
           noisy_log_record r');
    try exact Hr'; vm_compute; reflexivity.
Defined.

(** X8.  Metric categories appended to the "metrics" mapping never cost the
    metric extractor a finding or an evidence flag. *)
Theorem analyze_metrics_grows
  (proc : SetOrder) (input_payload input_payload' context context' : value)
  (metrics extra : list (string * value)) (r r' : Findings.t) :
  analyze_metrics proc input_payload = Ok r ->
  analyze_metrics proc input_payload' = Ok r' ->
  subscript input_payload "context" = Ok context ->
  py_get context "metrics" (VDict []) = Ok (VDict metrics) ->
  subscript input_payload' "context" = Ok context' ->
  py_get context' "metrics" (VDict []) = Ok (VDict (metrics ++ extra)) ->
  incl (Findings.findings r) (Findings.findings r') /\
  incl (Findings.evidence r) (Findings.evidence r').
Proof.
  intros Hr Hr' Hctx Hmet Hctx' Hmet'.
  apply analyze_metrics_Ok in Hr as (? & c & ? & l & _ & Hc & _ & Hl & ->).
  apply analyze_metrics_Ok in Hr' as (? & c' & ? & l' & _ & Hc' & _ & Hl' & ->).
  rewrite Hctx in Hc. injection Hc as <-.
  rewrite Hmet in Hl. injection Hl as <-.
  rewrite Hctx' in Hc'. injection Hc' as <-.
  rewrite Hmet' in Hl'. injection Hl' as <-.
  cbn [Findings.findings Findings.evidence].
  destruct (fires_more_findings _ _
              (metric_table_grows _ _
                 (fun k Hk => dict_text_grows k metrics extra Hk)))
    as [Hf He].
  split; [|exact He].
  intros entry Hentry. apply list_of_set_In. apply Hf.
  now apply list_of_set_In in Hentry.
Qed.

(** From [noisy_payload], two findings, to [noisier_payload]. *)
Lemma analyze_metrics_grows_witness :
  exists r',
    analyze_metrics insertion_order noisier_payload = Ok r' /\
    length (Findings.findings noisy_metric_record) = 2 /\
    incl (Findings.findings noisy_metric_record) (Findings.findings r') /\
    incl (Findings.evidence noisy_metric_record) (Findings.evidence r').
Proof.
  destruct (analyze_metrics insertion_order noisier_payload) as [r'|e] eqn:Hr';
    [|discriminate Hr'].
  exists r'. split; [reflexivity|]. split; [reflexivity|].
  apply (analyze_metrics_grows insertion_order noisy_payload noisier_payload
           (VDict [("logs",
                    VDict [("application",
                            VList [VStr "DBTimeout: Too many connections";
                                   VStr "timeout again, retry 3"])]);
                   ("metrics",
                    VDict [("database",
                            VDict [("connection_usage", VFloat (FRepr "1.0"));
                                   ("cpu", VStr "LOW")])])])
           (VDict [("logs",
                    VDict [("application",
                            VList [VStr "DBTimeout: Too many connections";
                                   VStr "timeout again, retry 3"]);
                           ("database",
                            VList [VStr "Circuit breaker OPEN"])]);
                   ("metrics",
                    VDict [("database",
                            VDict [("connection_usage", VFloat (FRepr "1.0"));
                                   ("cpu", VStr "LOW")]);
                           ("application",
                            VDict [("p99_latency_ms", VInt 900)])])])
           [("database",
             VDict [("connection_usage", VFloat (FRepr "1.0"));
                    ("cpu", VStr "LOW")])]
           [("application", VDict [("p99_latency_ms", VInt 900)])]
           noisy_metric_record r');
    try exact Hr'; vm_compute; reflexivity.
Defined.

(* ================================================================== *)
(** ** Shape of the returned records *)
(* ================================================================== *)

(** Distinct finding strings stay distinct among the fired rows. *)
Lemma fired_findings_NoDup (table : list rule) :
  NoDup (map finding table) -> NoDup (fired_findings table).
Proof.
  unfold fired_findings, fired.
  induction table as [|row table IH]; intros Hall; [constructor|].
  apply NoDup_cons_iff in Hall as [Hfresh Hrest].
  cbn [filter]. destruct (fires row); [|exact (IH Hrest)].
  cbn [map]. apply NoDup_cons; [|exact (IH Hrest)].
  intros Hin. apply Hfresh.
  apply in_map_iff in Hin as (row' & Heq & Hrow').
  apply filter_In in Hrow' as [Hrow' _].
  rewrite <- Heq. now apply in_map.
Qed.

Lemma log_table_findings (text : string) :
  NoDup (map finding (log_table text)).
Proof.
  cbn [log_table map finding].
  repeat (constructor;
          [cbn [In]; intros H; repeat destruct H as [H|H];
           try discriminate H; exact H|]).
  constructor.
Qed.

Lemma metric_table_findings (text : string) :
  NoDup (map finding (metric_table text)).
Proof.
  cbn [metric_table map finding].
  repeat (constructor;
          [cbn [In]; intros H; repeat destruct H as [H|H];
           try discriminate H; exact H|]).
  constructor.
Qed.

Lemma fired_lengths (proc : SetOrder) (table : list rule) :
  NoDup (map finding table) ->
  length (list_of_set proc (fired_findings table))
  = length (fired_evidence table) /\
  length (fired_evidence table) <= length table.
Proof.
  intros Hnd. split.
  - rewrite (Permutation_length
               (list_of_set_perm proc _ (fired_findings_NoDup _ Hnd))).
    unfold fired_findings, fired_evidence. now rewrite !length_map.
  - unfold fired_evidence, fired. rewrite length_map. apply filter_length_le.
Qed.

(** X9.  In every record an extractor returns, findings and evidence flags
    go in pairs: the two have the same number of entries, at most four, so
    the pass through [set] never drops a finding. *)
Theorem extractor_findings_match_evidence
  (proc : SetOrder) (input_payload : value) (r : Findings.t) :
  analyze_logs proc input_payload = Ok r \/
  analyze_metrics proc input_payload = Ok r ->
  length (Findings.findings r) = length (Findings.evidence r) /\
  length (Findings.findings r) <= 4.
Proof.
  intros [Hr|Hr].
  - apply analyze_logs_Ok in Hr as (? & ? & ? & logs & _ & _ & _ & _ & ->).
    cbn [Findings.findings Findings.evidence].
    destruct (fired_lengths proc _ (log_table_findings (lower (json_dumps logs))))
      as [Heq Hle].
    split; [exact Heq | rewrite Heq; exact Hle].
  - apply analyze_metrics_Ok in Hr as (? & ? & ? & metrics & _ & _ & _ & _ & ->).
    cbn [Findings.findings Findings.evidence].
    destruct (fired_lengths proc _
                (metric_table_findings (lower (json_dumps metrics))))
      as [Heq Hle].
    split; [exact Heq | rewrite Heq; exact Hle].
Qed.

Lemma extractor_findings_match_evidence_witness :
  length (Findings.findings noisy_log_record)
  = length (Findings.evidence noisy_log_record) /\
  length (Findings.findings noisy_log_record) <= 4.
Proof.
  apply (extractor_findings_match_evidence insertion_order noisy_payload).
  left. vm_compute. reflexivity.
Defined.

(* ================================================================== *)
(** ** Shape of the verdict *)
(* ================================================================== *)

Lemma synthesize_verdict_Ok (incident : value) (agent_findings : list value)
  (v : Verdict.t) :
  synthesize_verdict incident agent_findings = Ok v ->
  exists iid sev,
    subscript incident "incident_id" = Ok iid /\
    subscript incident "severity" = Ok sev /\
    v = {| Verdict.incident_id := iid;
           Verdict.severity := sev;
           Verdict.root_cause := root_cause_of (combined agent_findings);
           Verdict.failure_summary := summary_of (combined agent_findings);
           Verdict.recommended_actions :=
             {| Verdict.immediate := immediate_of (combined agent_findings);
                Verdict.short_term := short_term_of (combined agent_findings);
                Verdict.long_term := long_term_actions |};
           Verdict.confidence := FRepr "0.92" |}.
Proof.
  rewrite synthesize_verdict_eq.
  destruct (subscript incident "incident_id") as [iid|];
    cbn [bind]; [|discriminate].
  destruct (subscript incident "severity") as [sev|];
    cbn [bind]; [|discriminate].
  intros H; injection H as <-. exists iid, sev. auto.
Qed.

Ltac decide_In :=
  cbn [In app when];
  repeat match goal with
         | |- _ <-> _ => split
         | |- _ -> _ => intro
         | H : _ \/ _ |- _ => destruct H
         | H : False |- _ => destruct H
         | H : @eq string _ _ |- _ => discriminate H
         end;
  auto.

(** X10.  The fields of a verdict hang together: the root cause is either
    the pool-exhaustion narrative or "Undetermined"; it is the narrative
    exactly when the failure summary has the max_connections entry, which is
    exactly when the immediate actions have the max_connections increase; and
    the summary has the autoscaling entry exactly when the short-term actions
    have the replica reduction. *)
Theorem verdict_fields_agree
  (incident : value) (agent_findings : list value) (v : Verdict.t) :
  synthesize_verdict incident agent_findings = Ok v ->
  (Verdict.root_cause v = pool_exhaustion \/
   Verdict.root_cause v = "Undetermined") /\
  (Verdict.root_cause v = pool_exhaustion <->
   In "Database max_connections limit exceeded" (Verdict.failure_summary v)) /\
  (In "Database max_connections limit exceeded" (Verdict.failure_summary v) <->
   In "Increase database max_connections temporarily"
      (Verdict.immediate (Verdict.recommended_actions v))) /\
  (In "Application autoscaled without database capacity alignment"
      (Verdict.failure_summary v) <->
   In "Reduce application replica count"
      (Verdict.short_term (Verdict.recommended_actions v))).
Proof.
  intros Hv. apply synthesize_verdict_Ok in Hv as (iid & sev & _ & _ & ->).
  cbn [Verdict.root_cause Verdict.failure_summary Verdict.recommended_actions
       Verdict.immediate Verdict.short_term].
  unfold root_cause_of, summary_of, immediate_of, short_term_of.
  assert (Hne : pool_exhaustion <> "Undetermined")
    by (vm_compute; discriminate).
  generalize (str_in "connection" (combined agent_findings)
              || str_in "dbtimeout" (combined agent_findings)) as pool.
  generalize (str_in "retry" (combined agent_findings)) as retry.
  generalize (str_in "autoscaling" (combined agent_findings)) as scaling.
  generalize (str_in "deployment" (combined agent_findings)
              || str_in "config" (combined agent_findings)) as rollout.
  intros rollout scaling retry pool.
  destruct pool, retry, scaling, rollout;
    (split; [first [left; reflexivity | right; reflexivity]|]);
    (split; [|split]); decide_In;
    try (exfalso; apply Hne; symmetry; assumption).
Qed.

Lemma verdict_fields_agree_witness :
  exists v,
    synthesize_verdict sample_incident [Findings.to_value noisy_log_record]
    = Ok v /\
    Verdict.root_cause v = pool_exhaustion /\
    In "Increase database max_connections temporarily"
       (Verdict.immediate (Verdict.recommended_actions v)).
Proof.
  destruct (synthesize_verdict sample_incident
              [Findings.to_value noisy_log_record]) as [v|e] eqn:Hv;
    [|discriminate Hv].
  exists v. split; [reflexivity|].
  destruct (verdict_fields_agree _ _ _ Hv) as (_ & Hroot & Hsum & _).
  assert (Hin : In "Database max_connections limit exceeded"
                   (Verdict.failure_summary v)).
  { injection Hv as <-. left. reflexivity. }
  split; [now apply Hroot | now apply Hsum].
Defined.

(** X11.  No list of a verdict has an entry twice, the failure summary has
    at most three entries and the immediate actions at most two. *)
Theorem verdict_lists_duplicate_free
  (incident : value) (agent_findings : list value) (v : Verdict.t) :
  synthesize_verdict incident agent_findings = Ok v ->
  NoDup (Verdict.failure_summary v) /\
  NoDup (Verdict.immediate (Verdict.recommended_actions v)) /\
  NoDup (Verdict.short_term (Verdict.recommended_actions v)) /\
  NoDup (Verdict.long_term (Verdict.recommended_actions v)) /\
  length (Verdict.failure_summary v) <= 3 /\
  length (Verdict.immediate (Verdict.recommended_actions v)) <= 2.
Proof.
  intros Hv. apply synthesize_verdict_Ok in Hv as (iid & sev & _ & _ & ->).
  cbn [Verdict.failure_summary Verdict.recommended_actions
       Verdict.immediate Verdict.short_term Verdict.long_term].
  unfold summary_of, immediate_of, short_term_of, long_term_actions.
  generalize (str_in "connection" (combined agent_findings)
              || str_in "dbtimeout" (combined agent_findings)) as pool.
  generalize (str_in "retry" (combined agent_findings)) as retry.
  generalize (str_in "autoscaling" (combined agent_findings)) as scaling.
  generalize (str_in "deployment" (combined agent_findings)
              || str_in "config" (combined agent_findings)) as rollout.
  intros rollout scaling retry pool.
  assert (Hnodup : forall l : list string,
             (forallb (fun x => Nat.eqb (count_occ string_dec l x) 1) l = true) ->
             NoDup l).
  { intros l H. apply (NoDup_count_occ' string_dec). intros x Hx.
    rewrite forallb_forall in H. now apply Nat.eqb_eq, H. }
  destruct pool, retry, scaling, rollout; cbn [when app length];
    repeat split; try (apply Hnodup; vm_compute; reflexivity);
    repeat constructor.
Qed.

Lemma verdict_lists_duplicate_free_witness :
  exists v,
    synthesize_verdict sample_incident
      [Findings.to_value noisy_log_record;
       Findings.to_value noisy_log_record] = Ok v /\
    NoDup (Verdict.failure_summary v).
Proof.
  destruct (synthesize_verdict sample_incident
              [Findings.to_value noisy_log_record;
               Findings.to_value noisy_log_record]) as [v|e] eqn:Hv;
    [|discriminate Hv].
  exists v. split; [reflexivity|].
  apply (verdict_lists_duplicate_free _ _ _ Hv).
Defined.

(* ================================================================== *)
(** ** Agent selection: edge cases and nested symptoms *)
(* ================================================================== *)

(** X12.  An incident mapping that carries [incident_id] and no
    [expected_symptoms] selects no agent at all: the selection is the empty
    list, not an exception. *)
Theorem decide_agents_without_symptoms
  (proc : SetOrder) (incident : list (string * value)) (iid : value) :
  lookup "incident_id" incident = Some iid ->
  lookup "expected_symptoms" incident = None ->
  decide_agents proc (VDict incident)
  = Ok {| Selection.incident_id := iid; Selection.agents_to_call := [] |}.
Proof.
  intros Hid Hsym. rewrite decide_agents_eq. cbn [py_get subscript].
  rewrite Hsym, Hid. cbn [bind].
  change (lower (py_str (VDict []))) with "{}".
  change (any_in logs_keywords "{}") with false.
  change (any_in metrics_keywords "{}") with false.
  change (any_in deploy_keywords "{}") with false.
  cbn [when app]. now rewrite list_of_set_nil.
Qed.

Lemma decide_agents_without_symptoms_witness :
  decide_agents reverse_order sample_incident
  = Ok {| Selection.incident_id := VStr "inc-db-5001";
          Selection.agents_to_call := [] |}.
Proof.
  apply (decide_agents_without_symptoms reverse_order
           [("incident_id", VStr "inc-db-5001"); ("severity", VStr "SEV-1")]);
    reflexivity.
Defined.

Lemma selector_keywords_plain (k : string) :
  In k (logs_keywords ++ metrics_keywords ++ deploy_keywords)%list ->
  plain survives_repr k = true.
Proof.
  assert (H : forallb (plain survives_repr)
                (logs_keywords ++ metrics_keywords ++ deploy_keywords)%list
              = true) by (vm_compute; reflexivity).
  rewrite forallb_forall in H. apply H.
Qed.

(** X13.  The selector finds its keywords in any symptom phrase, however the
    symptoms are nested: a string occurring anywhere in [expected_symptoms],
    as a phrase or as a subsystem name, that contains a keyword of a group in
    either letter case puts the role of that group in the selection. *)
Theorem decide_agents_detects
  (proc : SetOrder) (incident symptoms iid : value) (s k : string) :
  py_get incident "expected_symptoms" (VDict []) = Ok symptoms ->
  subscript incident "incident_id" = Ok iid ->
  occurs_in (VStr s) symptoms ->
  str_in k (lower s) = true ->
  exists sel,
    decide_agents proc incident = Ok sel /\
    (In k logs_keywords -> In "logs_agent" (Selection.agents_to_call sel)) /\
    (In k metrics_keywords ->
     In "metrics_agent" (Selection.agents_to_call sel)) /\
    (In k deploy_keywords ->
     In "deploy_intelligence_agent" (Selection.agents_to_call sel)).
Proof.
  intros Hsym Hid Hocc Hs. rewrite decide_agents_eq, Hsym. cbn [bind].
  rewrite Hid. cbn [bind]. eexists; split; [reflexivity|].
  cbn [Selection.agents_to_call].
  assert (Hfound : forall group,
             incl group (logs_keywords ++ metrics_keywords ++ deploy_keywords)%list ->
             In k group -> any_in group (lower (py_str symptoms)) = true).
  { intros group Hincl Hk. apply any_in_iff. exists k. split; [exact Hk|].
    apply (keyword_in_str k s symptoms); try assumption.
    apply selector_keywords_plain, Hincl, Hk. }
  split; [|split]; intros Hk; apply list_of_set_In.
  - rewrite (Hfound logs_keywords); [now left | | exact Hk].
    apply incl_appl, incl_refl.
  - rewrite (Hfound metrics_keywords); [| | exact Hk].
    + apply in_or_app; right. now left.
    + apply incl_appr, incl_appl, incl_refl.
  - rewrite (Hfound deploy_keywords); [| | exact Hk].
    + apply in_or_app; right. apply in_or_app; right. now left.
    + apply incl_appr, incl_appr, incl_refl.
Qed.

(** The symptom profile of the demonstration incident, cut down. *)
Lemma decide_agents_detects_witness :
  exists sel,
    decide_agents insertion_order
      (VDict [("incident_id", VStr "inc-db-5001");
              ("expected_symptoms",
               VDict [("infrastructure",
                       VList [VStr "Autoscaling mismatch"])])]) = Ok sel /\
    In "metrics_agent" (Selection.agents_to_call sel).
Proof.
  destruct (decide_agents_detects insertion_order
              (VDict [("incident_id", VStr "inc-db-5001");
                      ("expected_symptoms",
                       VDict [("infrastructure",
                               VList [VStr "Autoscaling mismatch"])])])
              (VDict [("infrastructure", VList [VStr "Autoscaling mismatch"])])
              (VStr "inc-db-5001") "Autoscaling mismatch" "autoscaling"
              eq_refl eq_refl)
    as (sel & Hsel & _ & Hmetrics & _).
  - apply (occurs_entry _ "infrastructure"
             (VList [VStr "Autoscaling mismatch"])); [left; reflexivity|].
    apply (occurs_item _ (VStr "Autoscaling mismatch")); [left; reflexivity|].
    apply occurs_here.
  - reflexivity.
  - exists sel. split; [exact Hsel|]. apply Hmetrics.
    do 3 right; left; reflexivity.
Defined.

(* ================================================================== *)
(** ** Which inputs are accepted *)
(* ================================================================== *)

(** X14.  The two extractors accept exactly the same payloads, those with an
    [incident] mapping that has an [incident_id] and with a [context]
    mapping, and reject every other payload with the same exception. *)
Theorem extractors_accept_alike (proc : SetOrder) (input_payload : value) :
  ((exists r, analyze_logs proc input_payload = Ok r) <->
   (exists incident iid context,
      subscript input_payload "incident" = Ok incident /\
      subscript incident "incident_id" = Ok iid /\
      subscript input_payload "context" = Ok (VDict context))) /\
  ((exists r, analyze_logs proc input_payload = Ok r) <->
   (exists r, analyze_metrics proc input_payload = Ok r)) /\
  (forall e, analyze_logs proc input_payload = Raise e <->
             analyze_metrics proc input_payload = Raise e).
Proof.
  rewrite analyze_logs_eq, analyze_metrics_eq.
  destruct (subscript input_payload "incident") as [incident|e1] eqn:E1;
    cbn [bind].
  2:{ split; [|split]; [split|reflexivity|reflexivity].
      - intros [r H]; discriminate H.
      - intros (? & ? & ? & H & _); discriminate H. }
  destruct (subscript input_payload "context") as [context|e2] eqn:E2;
    cbn [bind].
  2:{ split; [|split]; [split|reflexivity|reflexivity].
      - intros [r H]; discriminate H.
      - intros (? & ? & ? & _ & _ & H); discriminate H. }
  destruct (subscript incident "incident_id") as [iid|e3] eqn:E3; cbn [bind].
  2:{ split; [|split]; [split|reflexivity|reflexivity].
      - intros [r H]; discriminate H.
      - intros (inc & ? & ? & Hinc & H & _).
        injection Hinc as <-. rewrite E3 in H. discriminate H. }
  destruct context as [| | | | |items|entries];
    try (cbn [py_get bind];
         split; [|split]; [split|reflexivity|reflexivity];
         [intros [r H]; discriminate H
         |intros (? & ? & ? & _ & _ & H); discriminate H]).
  cbn [py_get].
  destruct (lookup "logs" entries), (lookup "metrics" entries); cbn [bind];
    (split; [|split]).
  all: try (intros e; split; intros H; discriminate H).
  all: split; intros _; try (eexists; reflexivity).
  all: exists incident, iid, entries; auto.
Qed.

(** X15.  [decide_agents] returns exactly on incident mappings that carry
    [incident_id], and [synthesize_verdict] exactly on incident mappings that
    carry [incident_id] and [severity], whatever the findings: whether a
    verdict comes back never depends on the evidence. *)
Theorem commander_accepts
  (proc : SetOrder) (incident : value) (agent_findings : list value) :
  ((exists sel, decide_agents proc incident = Ok sel) <->
   (exists d iid, incident = VDict d /\ lookup "incident_id" d = Some iid)) /\
  ((exists v, synthesize_verdict incident agent_findings = Ok v) <->
   (exists d iid sev,
      incident = VDict d /\ lookup "incident_id" d = Some iid /\
      lookup "severity" d = Some sev)) /\
  ((exists v, synthesize_verdict incident agent_findings = Ok v) <->
   (exists v, synthesize_verdict incident [] = Ok v)).
Proof.
  rewrite decide_agents_eq, !synthesize_verdict_eq.
  destruct incident as [| | | | | |d].
  1-6: cbn [py_get subscript bind]; split; [|split; [|reflexivity]]; split;
    first [ intros [? H]; discriminate H
          | intros (? & ? & H & _); discriminate H
          | intros (? & ? & ? & H & _); discriminate H ].
  cbn [py_get subscript].
  assert (Hget : forall T (k : value -> result T),
             (symptoms <- match lookup "expected_symptoms" d with
                          | Some x => Ok x
                          | None => Ok (VDict [])
                          end ;; k symptoms)
             = k (match lookup "expected_symptoms" d with
                  | Some x => x
                  | None => VDict []
                  end))
    by (intros T k; destruct (lookup "expected_symptoms" d); reflexivity).
  rewrite Hget. clear Hget.
  destruct (lookup "incident_id" d) as [iid|] eqn:Eid; cbn [bind].
  - split; [|split].
    + split; intros _; [exists d, iid; auto | eexists; reflexivity].
    + destruct (lookup "severity" d) as [sev|] eqn:Esev; cbn [bind]; split.
      * intros _. exists d, iid, sev. auto.
      * intros _. eexists; reflexivity.
      * intros [? H]; discriminate H.
      * intros (? & ? & ? & H1 & _ & H3). injection H1 as <-.
        rewrite Esev in H3. discriminate H3.
    + destruct (lookup "severity" d) as [sev|]; cbn [bind]; split;
        first [ intros _; eexists; reflexivity
              | intros [? H]; discriminate H ].
  - split; [|split; [|reflexivity]]; split.
    + intros [? H]; discriminate H.
    + intros (? & ? & H1 & H2). injection H1 as <-.
      rewrite Eid in H2. discriminate H2.
    + intros [? H]; discriminate H.
    + intros (? & ? & ? & H1 & H2 & _). injection H1 as <-.
      rewrite Eid in H2. discriminate H2.
Qed.

(* ================================================================== *)
(** ** What an extractor does not read *)
(* ================================================================== *)

Lemma lookup_dict_set_other (k k' : string) (v : value)
  (d : list (string * value)) :
  k <> k' -> lookup k (dict_set d k' v) = lookup k d.
Proof.
  intros Hne. induction d as [|[k0 v0] d IH]; cbn [dict_set lookup].
  - apply String.eqb_neq in Hne. now rewrite Hne.
  - destruct (String.eqb k' k0) eqn:E; cbn [lookup].
    + apply String.eqb_eq in E. subst k0.
      apply String.eqb_neq in Hne. now rewrite Hne.
    + now rewrite IH.
Qed.

Lemma lookup_dict_set_same (k : string) (v : value) (d : list (string * value)) :
  lookup k (dict_set d k v) = Some v.
Proof.
  induction d as [|[k0 v0] d IH]; cbn [dict_set lookup].
  - now rewrite String.eqb_refl.
  - destruct (String.eqb k k0) eqn:E; cbn [lookup].
    + now rewrite String.eqb_refl.
    + now rewrite E.
Qed.

(** X16.  The log extractor never reads the metrics and the metric extractor
    never reads the logs, and neither reads the instructions: setting
    [context["metrics"]] leaves the outcome of [analyze_logs] as it was, and
    setting [context["logs"]] that of [analyze_metrics]. *)
Theorem extractors_read_their_own_category
  (proc : SetOrder) (incident other : value) (context : list (string * value))
  (instructions instructions' : string) :
  analyze_logs proc
    (agent_payload incident (dict_set context "metrics" other) instructions')
  = analyze_logs proc (agent_payload incident context instructions) /\
  analyze_metrics proc
    (agent_payload incident (dict_set context "logs" other) instructions')
  = analyze_metrics proc (agent_payload incident context instructions).
Proof.
  rewrite !analyze_logs_eq, !analyze_metrics_eq. unfold agent_payload.
  cbn [subscript lookup String.eqb Ascii.eqb Bool.eqb bind py_get].
  rewrite (lookup_dict_set_other "logs" "metrics") by discriminate.
  rewrite (lookup_dict_set_other "metrics" "logs") by discriminate.
  split; reflexivity.
Qed.

(* ================================================================== *)
(** ** The context loaders *)
(* ================================================================== *)

Lemma load_log_context_inr {exn : Type} (fs : list string -> exn + value)
  (incident_id : string) (logs : value) :
  load_log_context fs incident_id = inr logs ->
  exists high_level application database infrastructure,
    fs ["mock-data"; "logs"; incident_id; "high_level.json"] = inr high_level /\
    fs ["mock-data"; "logs"; incident_id; "application_logs.json"]
    = inr application /\
    fs ["mock-data"; "logs"; incident_id; "database_logs.json"] = inr database /\
    fs ["mock-data"; "logs"; incident_id; "infrastructure_logs.json"]
    = inr infrastructure /\
    logs = VDict [("high_level", high_level); ("application", application);
                  ("database", database); ("infrastructure", infrastructure)].
Proof.
  unfold load_log_context. cbn [app].
  destruct (fs ["mock-data"; "logs"; incident_id; "high_level.json"])
    as [e|h]; cbn [load_bind]; [discriminate|].
  destruct (fs ["mock-data"; "logs"; incident_id; "application_logs.json"])
    as [e|a]; cbn [load_bind]; [discriminate|].
  destruct (fs ["mock-data"; "logs"; incident_id; "database_logs.json"])
    as [e|d]; cbn [load_bind]; [discriminate|].
  destruct (fs ["mock-data"; "logs"; incident_id; "infrastructure_logs.json"])
    as [e|i]; cbn [load_bind]; [discriminate|].
  intros H; injection H as <-. exists h, a, d, i. auto 6.
Qed.

Lemma load_metric_context_inr {exn : Type} (fs : list string -> exn + value)
  (incident_id : string) (metrics : value) :
  load_metric_context fs incident_id = inr metrics ->
  exists application database infrastructure,
    fs ["mock-data"; "metrics"; incident_id; "application_metrics.json"]
    = inr application /\
    fs ["mock-data"; "metrics"; incident_id; "database_metrics.json"]
    = inr database /\
    fs ["mock-data"; "metrics"; incident_id; "infrastructure_metrics.json"]
    = inr infrastructure /\
    metrics = VDict [("application", application); ("database", database);
                     ("infrastructure", infrastructure)].
Proof.
  unfold load_metric_context. cbn [app].
  destruct (fs ["mock-data"; "metrics"; incident_id; "application_metrics.json"])
    as [e|a]; cbn [load_bind]; [discriminate|].
  destruct (fs ["mock-data"; "metrics"; incident_id; "database_metrics.json"])
    as [e|d]; cbn [load_bind]; [discriminate|].
  destruct (fs ["mock-data"; "metrics"; incident_id;
                "infrastructure_metrics.json"])
    as [e|i]; cbn [load_bind]; [discriminate|].
  intros H; injection H as <-. exists a, d, i. auto.
Qed.

(** X17.  A context loader returns nothing partial: when [load_log_context]
    returns a mapping, each of its four categories holds what its file held,
    so all four files were loaded; likewise for the three categories of
    [load_metric_context]. *)
Theorem loaded_categories_hold_their_files
  {exn : Type} (fs : list string -> exn + value) (incident_id : string)
  (loaded : value) (category file : string) :
  (load_log_context fs incident_id = inr loaded ->
   In (category, file) log_files ->
   exists content,
     fs ["mock-data"; "logs"; incident_id; file] = inr content /\
     subscript loaded category = Ok content) /\
  (load_metric_context fs incident_id = inr loaded ->
   In (category, file) metric_files ->
   exists content,
     fs ["mock-data"; "metrics"; incident_id; file] = inr content /\
     subscript loaded category = Ok content).
Proof.
  split; intros Hload Hin.
  - apply load_log_context_inr in Hload
      as (h & a & d & i & Hh & Ha & Hd & Hi & ->).
    cbn [log_files In] in Hin.
    destruct Hin as [Hin|[Hin|[Hin|[Hin|[]]]]]; injection Hin as <- <-;
      eexists; (split; [eassumption | reflexivity]).
  - apply load_metric_context_inr in Hload as (a & d & i & Ha & Hd & Hi & ->).
    cbn [metric_files In] in Hin.
    destruct Hin as [Hin|[Hin|[Hin|[]]]]; injection Hin as <- <-;
      eexists; (split; [eassumption | reflexivity]).
Qed.

Lemma loaded_categories_hold_their_files_witness :
  exists content,
    echo_fs ["mock-data"; "logs"; "inc-db-5001"; "database_logs.json"]
    = inr content /\
    subscript
      (VDict [("high_level",
               VStr "mock-data/logs/inc-db-5001/high_level.json");
              ("application",
               VStr "mock-data/logs/inc-db-5001/application_logs.json");
              ("database",
               VStr "mock-data/logs/inc-db-5001/database_logs.json");
              ("infrastructure",
               VStr "mock-data/logs/inc-db-5001/infrastructure_logs.json")])
      "database" = Ok content.
Proof.
  apply (proj1 (loaded_categories_hold_their_files echo_fs "inc-db-5001" _
                  "database" "database_logs.json")).
  - reflexivity.
  - do 2 right; left; reflexivity.
Defined.




Ltac load_each fs :=
  repeat match goal with
         | |- context [load_bind _ (fs ?p) _] =>
             let E := fresh "Efile" in
             destruct (fs p) eqn:E; cbn [load_bind]; [discriminate|]
         end.

(** X19.  For an incident id whose seven agent files are named alike by the
    path built segment by segment and by the same path written with slashes
    (as they are for an id that is a plain name), the all-in-one loader of
    mock_data_loader.py agrees with the loaders of the two agents: whenever
    it returns, its "logs" entry is what [load_log_context] returns and its
    "metrics" entry what [load_metric_context] returns. *)
Theorem load_all_mock_data_agrees
  {exn : Type} (fs : list string -> exn + value) (incident_id : string)
  (data : value) :
  (forall category file,
     In (category, file) log_files ->
     fs ["mock-data"; "logs"; incident_id; file]
     = fs ["mock-data"; ("logs/" ++ incident_id ++ "/" ++ file)%string]) ->
  (forall category file,
     In (category, file) metric_files ->
     fs ["mock-data"; "metrics"; incident_id; file]
     = fs ["mock-data"; ("metrics/" ++ incident_id ++ "/" ++ file)%string]) ->
  load_all_mock_data fs incident_id = inr data ->
  exists logs metrics,
    subscript data "logs" = Ok logs /\
    subscript data "metrics" = Ok metrics /\
    load_log_context fs incident_id = inr logs /\
    load_metric_context fs incident_id = inr metrics.
Proof.
  intros Hlogs Hmetrics.
  pose proof (Hlogs "high_level" "high_level.json"
                (or_introl eq_refl)) as J1.
  pose proof (Hlogs "application" "application_logs.json"
                (or_intror (or_introl eq_refl))) as J2.
  pose proof (Hlogs "database" "database_logs.json"
                (or_intror (or_intror (or_introl eq_refl)))) as J3.
  pose proof (Hlogs "infrastructure" "infrastructure_logs.json"
                (or_intror (or_intror (or_intror (or_introl eq_refl))))) as J4.
  pose proof (Hmetrics "application" "application_metrics.json"
                (or_introl eq_refl)) as J5.
  pose proof (Hmetrics "database" "database_metrics.json"
                (or_intror (or_introl eq_refl))) as J6.
  pose proof (Hmetrics "infrastructure" "infrastructure_metrics.json"
                (or_intror (or_intror (or_introl eq_refl)))) as J7.
  clear Hlogs Hmetrics.
  unfold load_all_mock_data, load_json, BASE_PATH, load_log_context,
    load_metric_context.
  cbn [app append] in *.
  rewrite J1, J2, J3, J4, J5, J6, J7. clear J1 J2 J3 J4 J5 J6 J7.
  load_each fs.
  intros H; injection H as <-.
  do 2 eexists. repeat split; reflexivity.
Qed.

(** On [resolving_fs] the seven files of a plain incident id are named
    alike either way. *)
Lemma load_all_mock_data_agrees_witness :
  exists data logs metrics,
    load_all_mock_data resolving_fs "inc-db-5001" = inr data /\
    subscript data "logs" = Ok logs /\
    subscript data "metrics" = Ok metrics /\
    load_log_context resolving_fs "inc-db-5001" = inr logs /\
    load_metric_context resolving_fs "inc-db-5001" = inr metrics.
Proof.
  destruct (load_all_mock_data resolving_fs "inc-db-5001")
    as [e|data] eqn:Hdata; [destruct e|].
  exists data.
  destruct (load_all_mock_data_agrees resolving_fs "inc-db-5001" data)
    as (logs & metrics & H).
  - intros category file Hin. cbn [log_files In] in Hin.
    destruct Hin as [Hin|[Hin|[Hin|[Hin|[]]]]]; injection Hin as <- <-;
      reflexivity.
  - intros category file Hin. cbn [metric_files In] in Hin.
    destruct Hin as [Hin|[Hin|[Hin|[]]]]; injection Hin as <- <-;
      reflexivity.
  - exact Hdata.
  - exists logs, metrics. split; [reflexivity | exact H].
Defined.

(** The condition is a real one: for an absolute incident id the two ways
    of writing the path name different files on [resolving_fs]. *)
Remark absolute_incident_id_splits_paths :
  resolving_fs ["mock-data"; "logs"; "/tmp"; "high_level.json"]
  <> resolving_fs ["mock-data"; "logs//tmp/high_level.json"].
Proof. vm_compute. discriminate. Qed.

(** X20.  The categories the commander advertises under [data_references]
    are the ones the agents load: whenever the three loaders return, the
    "logs" list of [load_context_data] is the list of keys of the mapping
    [load_log_context] returns and its "metrics" list the list of keys of the
    mapping [load_metric_context] returns, in the same order. *)
Theorem data_references_name_loaded_categories
  {exn : Type} (fs : list string -> exn + value) (incident_id : string)
  (context logs metrics : value) :
  load_context_data fs = inr context ->
  load_log_context fs incident_id = inr logs ->
  load_metric_context fs incident_id = inr metrics ->
  exists references,
    subscript context "data_references" = Ok references /\
    subscript references "logs" = Ok (VList (map VStr (dict_keys logs))) /\
    subscript references "metrics" = Ok (VList (map VStr (dict_keys metrics))).
Proof.
  intros Hctx Hlogs Hmetrics.
  apply load_log_context_inr in Hlogs as (? & ? & ? & ? & _ & _ & _ & _ & ->).
  apply load_metric_context_inr in Hmetrics as (? & ? & ? & _ & _ & _ & ->).
  revert Hctx. unfold load_context_data. cbn [app].
  load_each fs.
  intros H; injection H as <-.
  eexists. repeat split; reflexivity.
Qed.

Lemma data_references_name_loaded_categories_witness :
  exists context references,
    load_context_data echo_fs = inr context /\
    subscript context "data_references" = Ok references /\
    subscript references "logs"
    = Ok (VList [VStr "high_level"; VStr "application"; VStr "database";
                 VStr "infrastructure"]).
Proof.
  destruct (load_context_data echo_fs) as [e|context] eqn:Hctx; [destruct e|].
  exists context.
  destruct (data_references_name_loaded_categories echo_fs "inc-db-5001"
              context _ _ Hctx eq_refl eq_refl)
    as (references & Href & Hlogs & _).
  exists references. split; [reflexivity|]. split; [exact Href | exact Hlogs].
Defined.

(* ================================================================== *)
(** ** What the verdict takes from the incident *)
(* ================================================================== *)

(** X21.  The incident gives a verdict its [incident_id] and [severity],
    copied as they are, and nothing else: two incidents judged on the same
    findings get the same root cause, failure summary, recommended actions
    and confidence. *)
Theorem verdict_content_ignores_incident
  (incident incident' : value) (agent_findings : list value)
  (v v' : Verdict.t) :
  synthesize_verdict incident agent_findings = Ok v ->
  synthesize_verdict incident' agent_findings = Ok v' ->
  subscript incident "incident_id" = Ok (Verdict.incident_id v) /\
  subscript incident "severity" = Ok (Verdict.severity v) /\
  Verdict.root_cause v = Verdict.root_cause v' /\
  Verdict.failure_summary v = Verdict.failure_summary v' /\
  Verdict.recommended_actions v = Verdict.recommended_actions v' /\
  Verdict.confidence v = Verdict.confidence v'.
Proof.
  intros Hv Hv'.
  apply synthesize_verdict_Ok in Hv as (iid & sev & Hid & Hsev & ->).
  apply synthesize_verdict_Ok in Hv' as (iid' & sev' & _ & _ & ->).
  cbn [Verdict.incident_id Verdict.severity Verdict.root_cause
       Verdict.failure_summary Verdict.recommended_actions Verdict.confidence].
  repeat split; assumption.
Qed.

Lemma verdict_content_ignores_incident_witness :
  exists v v',
    synthesize_verdict sample_incident [Findings.to_value noisy_log_record]
    = Ok v /\
    synthesize_verdict
      (VDict [("severity", VStr "SEV-3"); ("incident_id", VInt 7);
              ("expected_symptoms", VStr "config change")])
      [Findings.to_value noisy_log_record] = Ok v' /\
    Verdict.recommended_actions v = Verdict.recommended_actions v'.
Proof.
  destruct (synthesize_verdict sample_incident
              [Findings.to_value noisy_log_record]) as [v|e] eqn:Hv;
    [|discriminate Hv].
  destruct (synthesize_verdict
              (VDict [("severity", VStr "SEV-3"); ("incident_id", VInt 7);
                      ("expected_symptoms", VStr "config change")])
              [Findings.to_value noisy_log_record]) as [v'|e] eqn:Hv';
    [|discriminate Hv'].
  exists v, v'. split; [reflexivity|]. split; [reflexivity|].
  apply (verdict_content_ignores_incident _ _ _ _ _ Hv Hv').
Defined.
